(** * zgoubidoo: MAD-X element converters and beamline survey

    A shallow embedding of [zgoubidoo/converters/zgoubi.py] and
    [zgoubidoo/survey.py].

    - Python exceptions are results in an error monad ([result]).
    - Floating-point magnitudes are IEEE-754 binary64 values, taken from
      the specification of floats of the standard library ([spec_float]
      with precision 53 and maximal exponent 1024).  [NaN] is the value
      the converters read as "unset".
    - A physical quantity is a magnitude with a symbolic unit (a finite
      map from unit names to exponents); a plain Python number is the
      quantity with the empty unit.  The sum of a quantity and a plain
      number is the one of the unit library: a zero is added as it is,
      any other number asks for a dimensionless quantity and gives a
      plain sum.
    - What the external unit layer decides on its own (whether a division
      by a zero magnitude raises, how a quantity is converted to another
      unit) is a type class, [UnitLayer], with two instances given below.
    - An element is a named attribute bag ([gmap string Quantity]); a
      command is a class name, a label and its keyword arguments. *)

From Stdlib Require Import ZArith String.
From Stdlib Require Import Floats.SpecFloat.
From stdpp Require Import gmap strings list fin_maps.

Local Open Scope Z_scope.
Local Open Scope string_scope.

(** ** Exceptions and results *)

Inductive exn :=
| KeyError (msg : string)
| ZeroDivisionError
| DimensionalityError
| AttributeError
| PlacementError (msg : string).

Inductive result (A : Type) :=
| Ok (a : A)
| Raise (e : exn).
Arguments Ok {A} a.
Arguments Raise {A} e.

Global Instance result_ret : MRet result := @Ok.
Global Instance result_bind : MBind result := λ A B f m,
  match m with
  | Ok a => f a
  | Raise e => Raise e
  end.

(** ** Binary64 magnitudes *)

Module F64.
Definition prec : Z := 53.
Definition emax : Z := 1024.

Abbreviation float := spec_float.

Definition add : float → float → float := SFadd prec emax.
Definition mul : float → float → float := SFmul prec emax.
(** IEEE division: never raises, [x / 0] is an infinity or [NaN]. *)
Definition div : float → float → float := SFdiv prec emax.
Definition opp : float → float := SFopp.
Definition abs : float → float := SFabs.
Definition eqb : float → float → bool := SFeqb.
Definition ltb : float → float → bool := SFltb.
Definition leb : float → float → bool := SFleb.

Definition of_Z (z : Z) : float := binary_normalize prec emax z 0 false.

Definition zero : float := S754_zero false.
Definition one : float := Eval vm_compute in of_Z 1.
Definition minus_one : float := Eval vm_compute in opp (of_Z 1).
Definition nan : float := S754_nan.

(** [numpy.pi], the binary64 nearest to pi: 0x1.921fb54442d18p+1. *)
Definition pi : float := S754_finite false 7074237752028440 (-51).

(** [numpy.isnan] *)
Definition isnan (x : float) : bool :=
  match x with
  | S754_nan => true
  | _ => false
  end.

(** [numpy.sign]: -1, 0 or 1 by the sign of [x]; [NaN] for [NaN]. *)
Definition sign (x : float) : float :=
  if ltb zero x then one
  else if ltb x zero then minus_one
  else if eqb x zero then zero
  else x.
End F64.
Import F64.

(** ** Quantities *)

(** A unit is a product of named units with integer exponents; zero
    exponents are dropped, as the unit layer does. *)
Abbreviation Unit := (gmap string Z).

Definition unit_mul (u v : Unit) : Unit :=
  union_with (λ a b, if decide (a + b = 0) then None else Some (a + b)) u v.
Definition unit_inv (u : Unit) : Unit := Z.opp <$> u.
Definition unit_div (u v : Unit) : Unit := unit_mul u (unit_inv v).
Definition unit_pow (u : Unit) (n : Z) : Unit :=
  if decide (n = 0) then ∅ else (λ a, a * n) <$> u.

Definition dimensionless : Unit := ∅.
Definition meter : Unit := {[ "meter" := 1 ]}.
Definition cm : Unit := {[ "centimeter" := 1 ]}.
Definition mm : Unit := {[ "millimeter" := 1 ]}.
Definition tesla : Unit := {[ "tesla" := 1 ]}.
Definition radian : Unit := {[ "radian" := 1 ]}.
Definition MHz : Unit := {[ "megahertz" := 1 ]}.
Definition MV : Unit := {[ "megavolt" := 1 ]}.

Record Quantity := Q_ { magnitude : float; units : Unit }.

(** A plain number. *)
Definition num (x : float) : Quantity := Q_ x dimensionless.

(** [q * unit] and [q / unit]: the magnitude is multiplied (divided) by
    1.0, which is exact, and the unit is attached. *)
Definition mul_unit (q : Quantity) (u : Unit) : Quantity :=
  Q_ (magnitude q) (unit_mul (units q) u).
Definition div_unit (q : Quantity) (u : Unit) : Quantity :=
  Q_ (magnitude q) (unit_div (units q) u).

Definition qmul (p q : Quantity) : Quantity :=
  Q_ (mul (magnitude p) (magnitude q)) (unit_mul (units p) (units q)).
Definition qneg (q : Quantity) : Quantity :=
  Q_ (opp (magnitude q)) (units q).

(** [numpy.abs], [numpy.sign] and [numpy.isnan] on a quantity; the sign is
    a plain number. *)
Definition np_abs (q : Quantity) : Quantity := Q_ (abs (magnitude q)) (units q).
Definition np_sign (q : Quantity) : Quantity := num (sign (magnitude q)).
Definition np_isnan (q : Quantity) : bool := isnan (magnitude q).

(** Comparisons with the literal zero look at the magnitude only. *)
Definition eq0 (q : Quantity) : bool := eqb (magnitude q) zero.
Definition ne0 (q : Quantity) : bool := negb (eq0 q).
Definition lt0 (q : Quantity) : bool := ltb (magnitude q) zero.
Definition ge0 (q : Quantity) : bool := leb zero (magnitude q).

(** A value with the empty unit is a plain Python number; a quantity of
    the unit layer carries at least one unit. *)
Definition is_number (q : Quantity) : bool :=
  bool_decide (units q = dimensionless).

(** The plain numbers that the unit layer adds to a quantity without a
    look at its units. *)
Definition zero_or_nan (x : float) : bool := eqb x zero || isnan x.

(** What the unit layer owns: the division of two magnitudes (IEEE for
    numpy scalars, raising on a zero divisor for Python floats) and the
    conversion of a quantity to another unit ([Quantity.to]), which raises
    [DimensionalityError] between units of different dimensions. *)
Class UnitLayer := {
  mag_div : float → float → result float;
  to_units : Quantity → Unit → result Quantity;
}.

Section Arithmetic.
Context `{UnitLayer}.

Definition qdiv (p q : Quantity) : result Quantity :=
  m ← mag_div (magnitude p) (magnitude q);
  mret (Q_ m (unit_div (units p) (units q))).

(** A quantity [p] and a plain number [x], in either order
    ([Quantity.__radd__] is [Quantity.__add__]).  A zero or a NaN is added
    to the magnitude and the units of [p] are kept.  For any other number
    [p] has to be dimensionless, as a quantity in radian is: it is
    converted to the empty unit, and the sum carries no unit. *)
Definition add_number (p : Quantity) (x : float) : result Quantity :=
  if zero_or_nan x
  then mret (Q_ (add (magnitude p) x) (units p))
  else p' ← to_units p dimensionless;
       mret (Q_ (add (magnitude p') x) dimensionless).

(** [p + q].  Two plain numbers add as floats.  Two quantities add in the
    units of the left one; the right one is converted first when its
    units differ. *)
Definition qadd (p q : Quantity) : result Quantity :=
  match is_number p, is_number q with
  | true, true => mret (num (add (magnitude p) (magnitude q)))
  | false, true => add_number p (magnitude q)
  | true, false => add_number q (magnitude p)
  | false, false =>
      if decide (units p = units q)
      then mret (Q_ (add (magnitude p) (magnitude q)) (units p))
      else q' ← to_units q (units p);
           mret (Q_ (add (magnitude p) (magnitude q')) (units p))
  end.

(** [q.m_as(u)], a method of quantities: a plain number has none. *)
Definition m_as (q : Quantity) (u : Unit) : result float :=
  if is_number q then Raise AttributeError
  else q' ← to_units q u; mret (magnitude q').
End Arithmetic.

(** The part of the unit registry that a conversion of the converters can
    reach: three lengths, with their scale to the metre, and the radian,
    which has no dimension, as a plain number has none. *)
Inductive Dimension := Length | NoDimension.

Global Instance Dimension_eq_dec : EqDecision Dimension.
Proof. solve_decision. Defined.

(** 0.01 and 0.001, the binary64 values 0x1.47ae147ae147bp-7 and
    0x1.0624dd2f1a9fcp-10: the scales of the prefixes centi and milli. *)
Definition centi : float := S754_finite false 5764607523034235 (-59).
Definition milli : float := S754_finite false 4611686018427388 (-62).

Definition registry (u : Unit) : option (Dimension * float) :=
  if decide (u = meter) then Some (Length, one)
  else if decide (u = cm) then Some (Length, centi)
  else if decide (u = mm) then Some (Length, milli)
  else if decide (u = radian) then Some (NoDimension, one)
  else if decide (u = dimensionless) then Some (NoDimension, one)
  else None.

(** [UnitRegistry.convert]: between units of one dimension the magnitude
    is multiplied by one factor, the scale of the source times the scale
    of the destination to the power -1; a multiplication by 1.0 leaves
    every magnitude as it is. *)
Definition convert (q : Quantity) (u : Unit) : result Quantity :=
  if decide (units q = u) then Ok q
  else match registry (units q), registry u with
       | Some (d, a), Some (d', b) =>
           if decide (d = d') then
             let factor := mul a (div one b) in
             Ok (Q_ (if eqb factor one then magnitude q
                     else mul (magnitude q) factor) u)
           else Raise DimensionalityError
       | _, _ => Raise DimensionalityError
       end.

(** Two unit layers on this registry. *)
Definition numpy_layer : UnitLayer :=
  {| mag_div := λ x y, Ok (div x y);
     to_units := convert |}.

Definition python_layer : UnitLayer :=
  {| mag_div := λ x y, if eqb y zero then Raise ZeroDivisionError
                       else Ok (div x y);
     to_units := convert |}.

(** A layer in which every division and every conversion raises. *)
Definition raising_layer : UnitLayer :=
  {| mag_div := λ _ _, Raise ZeroDivisionError;
     to_units := λ _ _, Raise DimensionalityError |}.

(** ** Elements, kinematics, options and commands *)

Record Element := { name : string; attrs : gmap string Quantity }.

(** [element[key]] raises [KeyError]; [element.get(key)] gives [None]. *)
Definition getitem (element : Element) (key : string) : result Quantity :=
  match attrs element !! key with
  | Some q => Ok q
  | None => Raise (KeyError key)
  end.
Definition get (element : Element) (key : string) : option Quantity :=
  attrs element !! key.

Record Kinematics := { brho : Quantity; brho_ : float }.

Inductive CommandClass :=
| Marker | Drift | Bend | Multipole | Quadrupole | Sextupole | Octupole
| Cavite | ChangeRef
| UserCommand (cls : string).

(** The recognised keys of the options mapping. *)
Record Options := { command : option CommandClass; R0 : option Quantity }.

Inductive Label :=
| NoLabel
| Given (s : string)
| Generated (prefix : string).

Inductive Value :=
| VQty (q : Quantity)
| VInt (z : Z)
| VStr (s : string)
| VTransformations (t : list (string * Quantity)).

Record Command := {
  cls : CommandClass;
  label : Label;
  params : gmap string Value;
}.

(** [Class(label, key=value, ...)] *)
Definition new (c : CommandClass) (l : Label) (kw : list (string * Value))
  : Command :=
  {| cls := c; label := l; params := list_to_map kw |}.

(** [command.generate_label(prefix=p)] returns the command, relabelled. *)
Definition generate_label (c : Command) (p : string) : Command :=
  {| cls := cls c; label := Generated p; params := params c |}.

(** [command.KEY = v] *)
Definition setattr (c : Command) (key : string) (v : Value) : Command :=
  {| cls := cls c; label := label c; params := <[key := v]> (params c) |}.

(** [s[0:n]] *)
Definition prefix_of (n : nat) (s : string) : string := String.substring 0 n s.

(** The rotation of a [ChangeRef] built with one ['XR'] transformation. *)
Definition rotation (c : Command) : option Quantity :=
  match params c !! "TRANSFORMATIONS" with
  | Some (VTransformations [("XR", q)]) => Some q
  | _ => None
  end.

(** The bend among the commands returned for a bend: alone, or between two
    changes of reference. *)
Definition the_bend (cmds : list Command) : option Command :=
  match cmds with
  | [b] => Some b
  | [_; b; _] => Some b
  | _ => None
  end.

(** An attribute with [NaN] read as zero radian. *)
Definition unset_as_zero (q : Quantity) : Quantity :=
  if np_isnan q then mul_unit (num zero) radian else q.

(** ** The converters *)

Section Converters.
Context `{UnitLayer}.
(** [constants.ZGOUBI_LABEL_LENGTH] *)
Variable ZGOUBI_LABEL_LENGTH : nat.

Definition cm10 : Quantity := mul_unit (num (of_Z 10)) cm.

Definition marker_to_zgoubi (element : Element) (kinematics : Kinematics)
    (options : Options) : result (list Command) :=
  mret [generate_label (new (default Marker (command options)) NoLabel [])
                       (name element)].

Definition drift_to_zgoubi (element : Element) (kinematics : Kinematics)
    (options : Options) : result (list Command) :=
  l ← getitem element "L";
  mret [new (default Drift (command options)) (Given (name element))
            [("XL", VQty l)]].

Definition rbend_to_zgoubi (element : Element) (kinematics : Kinematics)
    (options : Options) : result (list Command) :=
  let bore_radius := default cm10 (R0 options) in
  xl ← (l ← getitem element "L"; mret (mul_unit l meter));
  b1 ← (l ← getitem element "L";
        a ← getitem element "ANGLE";
        d ← qdiv l a;
        qdiv (brho kinematics) (mul_unit d meter));
  b2 ← (k1l ← getitem element "K1L";
        l ← getitem element "L";
        g ← qdiv k1l l;
        r ← m_as bore_radius meter;
        mret (mul_unit (qmul (qmul g (num (brho_ kinematics))) (num r))
                       tesla));
  r1 ← (t ← getitem element "TILT"; mret (mul_unit t radian));
  r2 ← (t ← getitem element "TILT"; mret (mul_unit t radian));
  let m := generate_label
             (new Multipole NoLabel
                  [("XL", VQty xl); ("R0", VQty bore_radius);
                   ("B1", VQty b1); ("B2", VQty b2);
                   ("R1", VQty r1); ("R2", VQty r2); ("KPOS", VInt 3)])
             (name element) in
  mret [m].

(** Lines 87-90 of the sector bend: the field, zero for a zero angle. *)
Definition sbend_b1 (element : Element) (kinematics : Kinematics)
    : result Quantity :=
  a ← getitem element "ANGLE";
  if eq0 a then mret (mul_unit (num zero) tesla)
  else l ← getitem element "L";
       a' ← getitem element "ANGLE";
       d ← qdiv l (np_abs a');
       qdiv (brho kinematics) d.

(** Lines 91-102: an attribute, with [NaN] read as zero radian. *)
Definition nan_as_zero (element : Element) (key : string)
    : result Quantity :=
  v ← getitem element key;
  if np_isnan v then mret (mul_unit (num zero) radian)
  else getitem element key.

Definition pi_rad : Quantity := mul_unit (num pi) radian.

Definition change_ref (l : string) (angle : Quantity) : Command :=
  new ChangeRef (Given l) [("TRANSFORMATIONS", VTransformations [("XR", angle)])].

Definition sbend_to_zgoubi (element : Element) (kinematics : Kinematics)
    (options : Options) : result (list Command) :=
  b1 ← sbend_b1 element kinematics;
  we ← nan_as_zero element "E1";
  ws ← nan_as_zero element "E2";
  tilt ← nan_as_zero element "TILT";
  xl ← getitem element "L";
  w_e ← (a ← getitem element "ANGLE"; mret (qmul we (np_sign a)));
  w_s ← (a ← getitem element "ANGLE"; mret (qmul ws (np_sign a)));
  let b := new (default Bend (command options))
               (Given (prefix_of ZGOUBI_LABEL_LENGTH (name element)))
               [("XL", VQty xl); ("B1", VQty b1); ("KPOS", VInt 3);
                ("W_E", VQty w_e); ("W_S", VQty w_s)] in
  t ← getitem element "TILT";
  let b := if ne0 t then setattr b "COLOR" (VStr "goldenrod") else b in
  a ← getitem element "ANGLE";
  if lt0 a then
    r1 ← qadd (qneg tilt) pi_rad;
    let c1 := change_ref (name element +:+ "_CRL") (qneg r1) in
    r2 ← qadd (qneg tilt) pi_rad;
    let c2 := change_ref (name element +:+ "_CRR") r2 in
    mret [c1; b; c2]
  else
    t' ← getitem element "TILT";
    if np_isnan t' then mret [b]
    else mret [change_ref (name element +:+ "_CRL") tilt;
               b;
               change_ref (name element +:+ "_CRR") (qneg tilt)].

(** The gradient of the quadrupole, lines 143-150: [None] is the Python
    variable not yet bound. *)
Definition quadrupole_gradient (element : Element) : result Quantity :=
  let gradient : option Quantity :=
    if decide (get element "K1" = None ∧ get element "K1L" = None)
    then Some (div_unit (num zero) (unit_pow meter 2))
    else None in
  if decide (get element "K1" ≠ None)
  then k1 ← getitem element "K1";
       mret (div_unit k1 (unit_pow meter 2))
  else Raise (KeyError "K1 and K1L cannot be defined at the same time.").

Definition quadrupole_to_zgoubi (element : Element) (kinematics : Kinematics)
    (options : Options) : result (list Command) :=
  let bore_radius := default cm10 (R0 options) in
  gradient ← quadrupole_gradient element;
  xl ← getitem element "L";
  let zero_cm := mul_unit (num zero) cm in
  mret [new Quadrupole
            (Given (prefix_of ZGOUBI_LABEL_LENGTH (name element)))
            [("XL", VQty xl); ("R0", VQty bore_radius);
             ("B0", VQty (qmul (qmul gradient (brho kinematics)) bore_radius));
             ("XE", VQty zero_cm); ("LAM_E", VQty zero_cm);
             ("XS", VQty zero_cm); ("LAM_S", VQty zero_cm)]].

Definition sextupole_to_zgoubi (element : Element) (kinematics : Kinematics)
    (options : Options) : result (list Command) :=
  l ← getitem element "L";
  mret [new Sextupole (Given (prefix_of ZGOUBI_LABEL_LENGTH (name element)))
            [("XL", VQty (mul_unit l meter))]].

Definition octupole_to_zgoubi (element : Element) (kinematics : Kinematics)
    (options : Options) : result (list Command) :=
  l ← getitem element "L";
  mret [new Octupole (Given (prefix_of ZGOUBI_LABEL_LENGTH (name element)))
            [("XL", VQty (mul_unit l meter))]].

(** [numpy.pi / 2]: a division of Python floats by a non-zero literal. *)
Definition half_pi : float := div pi (of_Z 2).

Definition twcavity_to_zgoubi (element : Element) (kinematics : Kinematics)
    (options : Options) : result (list Command) :=
  freq ← (f ← getitem element "FREQ"; mret (mul_unit f MHz));
  v ← (x ← getitem element "VOLT";
       mret (qmul (mul_unit x MV) (np_sign (brho kinematics))));
  phi_s ← (lag ← getitem element "LAG";
           s ← qadd lag (num half_pi);
           mret (mul_unit s radian));
  let cavity := new Cavite
                    (Given (prefix_of ZGOUBI_LABEL_LENGTH (name element)))
                    [("IOPT", VInt 10);
                     ("XL", VQty (mul_unit (num one) meter));
                     ("FREQ", VQty freq); ("V", VQty v);
                     ("PHI_S", VQty phi_s)] in
  mret [new Drift NoLabel [("XL", VQty (mul_unit (num one) mm))]; cavity].
End Converters.

(** ** Survey *)

(** Elements are objects in a heap, and a line is a Python list of
    references to them: the same object may sit at several positions of a
    line, and a placement is seen through every reference to it.  A
    Patchable object carries a placement state, any other object a state
    of its own; the class of an object never changes. *)
Abbreviation addr := positive.

Inductive Object (PState OState : Type) :=
| IsPatchable (p : PState)
| NotPatchable (o : OState).
Arguments IsPatchable {PState OState} p.
Arguments NotPatchable {PState OState} o.

Record PyList := { list_id : addr; items : list addr }.

Module Input.
Record t := { name : string; line : PyList }.
End Input.

(** One completed iteration of the loop on a Patchable element: the frame
    handed to [place] and the frame read from [exit] afterwards. *)
Record PlaceCall (Frame : Type) := {
  target : addr;
  entry_frame : Frame;
  exit_frame : Frame;
}.
Arguments target {Frame} _.
Arguments entry_frame {Frame} _.
Arguments exit_frame {Frame} _.

Record Run (Frame PState OState : Type) := {
  heap : gmap addr (Object PState OState);
  last_frame : Frame;
  calls : list (PlaceCall Frame);
  raised : option exn;
}.
Arguments heap {Frame PState OState} _.
Arguments last_frame {Frame PState OState} _.
Arguments calls {Frame PState OState} _.
Arguments raised {Frame PState OState} _.

Record SurveyRun (Frame PState OState : Type) := {
  heap_after : gmap addr (Object PState OState);
  place_calls : list (PlaceCall Frame);
  returned : result Input.t;
}.
Arguments heap_after {Frame PState OState} _.
Arguments place_calls {Frame PState OState} _.
Arguments returned {Frame PState OState} _.

Section Survey.
Context {Frame PState OState : Type}.
(** [Frame()], the default frame. *)
Variable Frame_new : Frame.
(** [Patchable.place]: the state of the element after the call, and the
    exception when it raised. *)
Variable place : PState → Frame → PState * option exn.
(** [Patchable.exit] *)
Variable exit : PState → Frame.

(** [isinstance(e, Patchable)] *)
Definition is_patchable (h : gmap addr (Object PState OState)) (e : addr)
    : bool :=
  match h !! e with
  | Some (IsPatchable _) => true
  | _ => false
  end.

(** The loop of lines 15-19, from the heap [h] and the running [frame]. *)
Fixpoint survey_loop (es : list addr) (h : gmap addr (Object PState OState))
    (frame : Frame) : Run Frame PState OState :=
  match es with
  | [] => {| heap := h; last_frame := frame; calls := []; raised := None |}
  | e :: es' =>
      match h !! e with
      | Some (IsPatchable p) =>
          let (p', err) := place p frame in
          let h' := <[e := IsPatchable p']> h in
          match err with
          | Some x =>
              {| heap := h'; last_frame := frame; calls := []; raised := Some x |}
          | None =>
              let r := survey_loop es' h' (exit p') in
              {| heap := heap r; last_frame := last_frame r;
                 calls := {| target := e; entry_frame := frame;
                             exit_frame := exit p' |} :: calls r;
                 raised := raised r |}
          end
      | _ => survey_loop es' h frame
      end
  end.

(** [reference_frame or Frame()]; a frame object is truthy. *)
Definition survey (h : gmap addr (Object PState OState))
    (beamline : option Input.t) (reference_frame : option Frame)
    : SurveyRun Frame PState OState :=
  match beamline with
  | None =>
      {| heap_after := h; place_calls := []; returned := Raise AttributeError |}
  | Some beamline =>
      let surveyed_line :=
        {| Input.name := Input.name beamline;
           Input.line := Input.line beamline |} in
      let frame := default Frame_new reference_frame in
      let r := survey_loop (items (Input.line beamline)) h frame in
      {| heap_after := heap r;
         place_calls := calls r;
         returned := match raised r with
                     | Some x => Raise x
                     | None => Ok surveyed_line
                     end |}
  end.

(** Each call gets the frame read from the call before it, the first one
    gets [f]. *)
Fixpoint chained (f : Frame) (cs : list (PlaceCall Frame)) : Prop :=
  match cs with
  | [] => True
  | c :: cs' => entry_frame c = f ∧ chained (exit_frame c) cs'
  end.
End Survey.

(** [Input(name=..., line=...)] on a list with the identity [id]. *)
Definition new_Input (name : string) (id : addr) (items : list addr)
    : Input.t :=
  {| Input.name := name; Input.line := {| list_id := id; items := items |} |}.

(** A line of drifts on an axis: a frame is an abscissa in millimetres, a
    drift keeps its length and the frame it was placed at. *)
Module DriftLine.
Record drift := { length_mm : Z; entry : option Z }.

Definition place (d : drift) (f : Z) : drift * option exn :=
  ({| length_mm := length_mm d; entry := Some f |}, None).
Definition exit (d : drift) : Z :=
  match entry d with
  | Some f => f + length_mm d
  | None => 0
  end.

Definition unplaced (l : Z) : Object drift unit :=
  IsPatchable {| length_mm := l; entry := None |}.

Definition h0 : gmap addr (Object drift unit) :=
  list_to_map [(1%positive, unplaced 1000); (2%positive, NotPatchable ());
               (3%positive, unplaced 2000); (4%positive, unplaced 1500)].
(** A placement that refuses a drift of negative length. *)
Definition place_checked (d : drift) (f : Z) : drift * option exn :=
  if decide (length_mm d < 0)
  then (d, Some (PlacementError "negative length"))
  else place d f.

Definition h1 : gmap addr (Object drift unit) :=
  list_to_map [(1%positive, unplaced 1000); (2%positive, NotPatchable ());
               (3%positive, unplaced (-2000)); (4%positive, unplaced 1500)].
Definition beamline (l : list addr) : Input.t :=
  {| Input.name := "LINE"; Input.line := {| list_id := 9; items := l |} |}.
End DriftLine.

(** The bend of lines 103-111, from the values the converter has read:
    the length, the field, the pole-face angles, the bend angle and the
    raw TILT attribute that decides the colour. *)
Definition sbend_command (N : nat) (element : Element) (options : Options)
    (l b1 we ws angle tilt : Quantity) : Command :=
  let b := new (default Bend (command options))
               (Given (prefix_of N (name element)))
               [("XL", VQty l); ("B1", VQty b1); ("KPOS", VInt 3);
                ("W_E", VQty (qmul we (np_sign angle)));
                ("W_S", VQty (qmul ws (np_sign angle)))] in
  if ne0 tilt then setattr b "COLOR" (VStr "goldenrod") else b.

(** ** Sample inputs *)

Module Samples.
(** 0.1, as the binary64 0x1.999999999999ap-4. *)
Definition tenth : float := S754_finite false 7205759403792794 (-56).

(** A rigidity of 3 T.m. *)
Definition kin : Kinematics :=
  {| brho := Q_ (of_Z 3) (unit_mul tesla meter); brho_ := of_Z 3 |}.
Definition no_options : Options := {| command := None; R0 := None |}.

Definition sbend (angle tilt : Quantity) : Element :=
  {| name := "MB1";
     attrs := list_to_map [("L", Q_ (of_Z 2) meter); ("ANGLE", angle);
                           ("E1", num nan); ("E2", num nan); ("TILT", tilt)] |}.
Definition sbend_straight : Element := sbend (Q_ zero radian) (num nan).
Definition sbend_negative : Element := sbend (Q_ (opp tenth) radian) (num nan).
Definition sbend_tilted : Element := sbend (Q_ tenth radian) (Q_ tenth radian).
(** A negative ANGLE with a TILT given as the plain number 0.1. *)
Definition sbend_negative_tilted : Element :=
  sbend (Q_ (opp tenth) radian) (num tenth).

Definition rbend (angle : float) : Element :=
  {| name := "RB1";
     attrs := list_to_map [("L", num (of_Z 2)); ("ANGLE", num angle);
                           ("K1L", num zero); ("TILT", num zero)] |}.

Definition quadrupole_K1_K1L : Element :=
  {| name := "QF1";
     attrs := list_to_map [("L", Q_ one meter); ("K1", num one);
                           ("K1L", num one)] |}.
Definition quadrupole_bare : Element :=
  {| name := "QF1"; attrs := list_to_map [("L", Q_ one meter)] |}.

Definition twcavity : Element :=
  {| name := "CAV1";
     attrs := list_to_map [("FREQ", num (of_Z 3000)); ("VOLT", num (of_Z 10));
                           ("LAG", num zero)] |}.
(** The same cavity with a LAG of 0.1 rad, a quantity. *)
Definition twcavity_radian : Element :=
  {| name := "CAV1";
     attrs := list_to_map [("FREQ", num (of_Z 3000)); ("VOLT", num (of_Z 10));
                           ("LAG", Q_ tenth radian)] |}.
End Samples.

(** * Properties *)

(** ** Magnitudes and quantities *)

Lemma opp_involutive (x : float) : opp (opp x) = x.
Proof. destruct x as [s|s| |s m e]; simpl; by rewrite ?negb_involutive. Qed.

Lemma qneg_involutive (q : Quantity) : qneg (qneg q) = q.
Proof. destruct q as [m u]. unfold qneg; simpl. by rewrite opp_involutive. Qed.

Lemma isnan_not_eq_zero (x : float) : isnan x = true → eqb x zero = false.
Proof. by destruct x. Qed.

Lemma eq_zero_not_lt (x : float) : eqb x zero = true → ltb x zero = false.
Proof. destruct x as [s|s| |s m e]; try destruct s; by cbv. Qed.

Lemma ge_zero_not_lt (x : float) : leb zero x = true → ltb x zero = false.
Proof. destruct x as [s|s| |s m e]; try destruct s; by cbv. Qed.

Lemma isnan_not_lt (x : float) : isnan x = true → ltb x zero = false.
Proof. by destruct x. Qed.

Lemma np_isnan_ne0 (q : Quantity) : np_isnan q = true → ne0 q = true.
Proof. unfold np_isnan, ne0, eq0. intros Hq. by rewrite isnan_not_eq_zero. Qed.

Lemma eq0_not_lt0 (q : Quantity) : eq0 q = true → lt0 q = false.
Proof. apply eq_zero_not_lt. Qed.

Lemma ge0_not_lt0 (q : Quantity) : ge0 q = true → lt0 q = false.
Proof. apply ge_zero_not_lt. Qed.

Lemma unit_mul_empty_l (u : Unit) : unit_mul ∅ u = u.
Proof. unfold unit_mul. by rewrite (left_id ∅ _). Qed.

Lemma zero_radian : mul_unit (num zero) radian = Q_ zero radian.
Proof. reflexivity. Qed.

Lemma zero_tesla : mul_unit (num zero) tesla = Q_ zero tesla.
Proof. reflexivity. Qed.

Lemma pi_rad_eq : pi_rad = Q_ pi radian.
Proof. reflexivity. Qed.

Lemma getitem_Some (element : Element) (key : string) (q : Quantity) :
  attrs element !! key = Some q → getitem element key = Ok q.
Proof. unfold getitem. by intros ->. Qed.

Lemma getitem_None (element : Element) (key : string) :
  attrs element !! key = None → getitem element key = Raise (KeyError key).
Proof. unfold getitem. by intros ->. Qed.

(** Rewrites the attribute reads that the hypotheses decide, then runs the
    binds on the results that are known. *)
Ltac known_reads :=
  repeat match goal with
         | Hk : attrs ?e !! ?k = Some ?q |- _ =>
             rewrite !(getitem_Some e k q Hk)
         end.
Ltac run := known_reads; unfold mbind, mret, result_bind, result_ret; cbv beta iota.

(** ** The sector bend *)

Section Sbend.
Context `{UnitLayer}.
Variable N : nat.
Variables (element : Element) (kinematics : Kinematics) (options : Options).
Variables (angle l e1 e2 tilt : Quantity).
Hypothesis HANGLE : attrs element !! "ANGLE" = Some angle.
Hypothesis HL : attrs element !! "L" = Some l.
Hypothesis HE1 : attrs element !! "E1" = Some e1.
Hypothesis HE2 : attrs element !! "E2" = Some e2.
Hypothesis HTILT : attrs element !! "TILT" = Some tilt.

Lemma nan_as_zero_E1 : nan_as_zero element "E1" = Ok (unset_as_zero e1).
Proof. unfold nan_as_zero, unset_as_zero. run. by destruct (np_isnan e1). Qed.

Lemma nan_as_zero_E2 : nan_as_zero element "E2" = Ok (unset_as_zero e2).
Proof. unfold nan_as_zero, unset_as_zero. run. by destruct (np_isnan e2). Qed.

Lemma nan_as_zero_TILT : nan_as_zero element "TILT" = Ok (unset_as_zero tilt).
Proof. unfold nan_as_zero, unset_as_zero. run. by destruct (np_isnan tilt). Qed.

Lemma sbend_b1_zero : eq0 angle = true → sbend_b1 element kinematics = Ok (Q_ zero tesla).
Proof. intros Hz. unfold sbend_b1. run. by rewrite Hz. Qed.

Lemma sbend_b1_nonzero :
  eq0 angle = false →
  sbend_b1 element kinematics
  = (d ← qdiv l (np_abs angle); qdiv (brho kinematics) d).
Proof. intros Hz. unfold sbend_b1. run. by rewrite Hz. Qed.

Let bend (b1 : Quantity) : Command :=
  sbend_command N element options l b1 (unset_as_zero e1) (unset_as_zero e2)
                angle tilt.

(** The converter, once its attribute reads are resolved. *)
Lemma sbend_run (b1 : Quantity) :
  sbend_b1 element kinematics = Ok b1 →
  sbend_to_zgoubi N element kinematics options
  = if lt0 angle then
      r ← qadd (qneg (unset_as_zero tilt)) pi_rad;
      Ok [change_ref (name element +:+ "_CRL") (qneg r);
          bend b1;
          change_ref (name element +:+ "_CRR") r]
    else if np_isnan tilt then Ok [bend b1]
    else Ok [change_ref (name element +:+ "_CRL") (unset_as_zero tilt);
             bend b1;
             change_ref (name element +:+ "_CRR") (qneg (unset_as_zero tilt))].
Proof.
  intros Hb1. unfold sbend_to_zgoubi.
  rewrite Hb1, nan_as_zero_E1, nan_as_zero_E2, nan_as_zero_TILT. run.
  fold (sbend_command N element options l b1 (unset_as_zero e1)
          (unset_as_zero e2) angle tilt).
  fold (bend b1).
  destruct (lt0 angle); [|done].
  by destruct (qadd (qneg (unset_as_zero tilt)) pi_rad).
Qed.

Lemma sbend_raises (x : exn) :
  sbend_b1 element kinematics = Raise x →
  sbend_to_zgoubi N element kinematics options = Raise x.
Proof. intros Hb1. unfold sbend_to_zgoubi. by rewrite Hb1. Qed.

End Sbend.

Lemma sbend_command_B1 N element options l b1 we ws angle tilt :
  params (sbend_command N element options l b1 we ws angle tilt) !! "B1"
  = Some (VQty b1).
Proof. unfold sbend_command. by destruct (ne0 tilt). Qed.

Lemma sbend_command_cls N element options l b1 we ws angle tilt :
  cls (sbend_command N element options l b1 we ws angle tilt)
  = default Bend (command options).
Proof. unfold sbend_command. by destruct (ne0 tilt). Qed.

Lemma sbend_command_COLOR N element options l b1 we ws angle tilt :
  ne0 tilt = true →
  params (sbend_command N element options l b1 we ws angle tilt) !! "COLOR"
  = Some (VStr "goldenrod").
Proof. unfold sbend_command. by intros ->. Qed.

Lemma lt0_not_eq0 (q : Quantity) : lt0 q = true → eq0 q = false.
Proof.
  unfold lt0, eq0. destruct (magnitude q) as [s|s| |s m e]; try destruct s; by cbv.
Qed.

Lemma radian_not_plain : radian ≠ dimensionless.
Proof. apply map_non_empty_singleton. Qed.

Lemma is_number_radian (x : float) : is_number (Q_ x radian) = false.
Proof. unfold is_number. apply bool_decide_eq_false, radian_not_plain. Qed.

Lemma is_number_true (q : Quantity) :
  units q = dimensionless → is_number q = true.
Proof. unfold is_number. intros Hu. by apply bool_decide_eq_true. Qed.

Lemma is_number_false (q : Quantity) :
  units q ≠ dimensionless → is_number q = false.
Proof. unfold is_number. intros Hu. by apply bool_decide_eq_false. Qed.

Lemma zero_or_nan_opp (x : float) : zero_or_nan (opp x) = zero_or_nan x.
Proof. destruct x as [s|s| |s m e]; try destruct s; by cbv. Qed.

Lemma zero_or_nan_set (x : float) :
  isnan x = false → zero_or_nan x = eqb x zero.
Proof. unfold zero_or_nan. intros ->. apply orb_false_r. Qed.

(** The conversions of the registry: a quantity in radian becomes the
    plain number of the same magnitude, and a length in centimetre is
    multiplied by 0.01, so that 35 cm is 0.35000000000000003 m and the
    default bore radius of 10 cm is 0.1 m. *)
Lemma convert_radian_number (x : float) :
  convert (Q_ x radian) dimensionless = Ok (num x).
Proof.
  unfold convert. simpl.
  rewrite decide_False by apply radian_not_plain. by vm_compute.
Qed.

Lemma convert_cm_meter (x : float) :
  convert (Q_ x cm) meter = Ok (Q_ (mul x centi) meter).
Proof. unfold convert. simpl. rewrite decide_False by done. reflexivity. Qed.

Lemma convert_35_cm :
  convert (Q_ (of_Z 35) cm) meter
  = Ok (Q_ (S754_finite false 6305039478318695 (-54)) meter)
  ∧ @m_as numpy_layer (Q_ (of_Z 10) cm) meter = Ok Samples.tenth.
Proof. split; vm_compute; reflexivity. Qed.

Lemma qadd_unset_tilt `{UnitLayer} (tilt : Quantity) :
  np_isnan tilt = true →
  qadd (qneg (unset_as_zero tilt)) pi_rad = Ok (Q_ (add (opp zero) pi) radian).
Proof.
  intros Hnan. unfold unset_as_zero. rewrite Hnan.
  unfold qadd. rewrite pi_rad_eq, zero_radian. unfold qneg. simpl.
  rewrite !is_number_radian. by case_decide.
Qed.

Lemma rotation_change_ref (l : string) (q : Quantity) :
  rotation (change_ref l q) = Some q.
Proof. reflexivity. Qed.

Lemma unset_as_zero_set (q : Quantity) : np_isnan q = false → unset_as_zero q = q.
Proof. unfold unset_as_zero. by intros ->. Qed.

(** C5.  A sector bend whose ANGLE compares equal to zero gets the field
    [0 tesla], and the converter then evaluates no operation of the unit
    layer at all: it returns the same commands under every layer, also
    under one whose divisions all raise, so the division
    [brho / (L / |ANGLE|)] is not evaluated.  For any other ANGLE the
    field is the result of that division: when the two divisions return
    [b1] the bend carries [B1 = b1], and when one raises the converter
    raises the same exception. *)
Theorem sbend_zero_angle_field `{UnitLayer} (N : nat) (element : Element)
    (kinematics : Kinematics) (options : Options)
    (angle l e1 e2 tilt : Quantity) :
  attrs element !! "ANGLE" = Some angle →
  attrs element !! "L" = Some l →
  attrs element !! "E1" = Some e1 →
  attrs element !! "E2" = Some e2 →
  attrs element !! "TILT" = Some tilt →
  (eq0 angle = true →
     (∃ cmds b,
         sbend_to_zgoubi N element kinematics options = Ok cmds
         ∧ the_bend cmds = Some b
         ∧ params b !! "B1" = Some (VQty (Q_ zero tesla)))
     ∧ (∀ U : UnitLayer,
           @sbend_to_zgoubi U N element kinematics options
           = sbend_to_zgoubi N element kinematics options)
     ∧ (∃ cmds,
           @sbend_to_zgoubi raising_layer N element kinematics options
           = Ok cmds))
  ∧ (eq0 angle = false →
     (∀ d b1,
         qdiv l (np_abs angle) = Ok d →
         qdiv (brho kinematics) d = Ok b1 →
         (lt0 angle = true →
          ∃ r, qadd (qneg (unset_as_zero tilt)) pi_rad = Ok r) →
         ∃ cmds b,
           sbend_to_zgoubi N element kinematics options = Ok cmds
           ∧ the_bend cmds = Some b
           ∧ params b !! "B1" = Some (VQty b1))
     ∧ (∀ x,
           (d ← qdiv l (np_abs angle); qdiv (brho kinematics) d) = Raise x →
           sbend_to_zgoubi N element kinematics options = Raise x)).
Proof.
  intros HA HL HE1 HE2 HT. split.
  - intros Hz.
    assert (Hrun : ∀ U : UnitLayer,
      @sbend_to_zgoubi U N element kinematics options
      = let b := sbend_command N element options l (Q_ zero tesla)
                   (unset_as_zero e1) (unset_as_zero e2) angle tilt in
        if np_isnan tilt then Ok [b]
        else Ok [change_ref (name element +:+ "_CRL") (unset_as_zero tilt);
                 b;
                 change_ref (name element +:+ "_CRR")
                   (qneg (unset_as_zero tilt))]).
    { intros U.
      rewrite (@sbend_run U N element kinematics options angle l e1 e2 tilt
                 HA HL HE1 HE2 HT (Q_ zero tesla)).
      - by rewrite (eq0_not_lt0 angle Hz).
      - eapply (@sbend_b1_zero U); eassumption. }
    split; [|split].
    + rewrite Hrun. cbv zeta. destruct (np_isnan tilt); eexists _, _;
        (split; [reflexivity|]); (split; [reflexivity|]);
        apply sbend_command_B1.
    + intros U. by rewrite !Hrun.
    + rewrite Hrun. cbv zeta. destruct (np_isnan tilt); by eexists.
  - intros Hz. split.
    + intros d b1 Hd Hb1 Hadd.
      assert (Hf : sbend_b1 element kinematics = Ok b1).
      { rewrite (sbend_b1_nonzero element kinematics angle l HA HL Hz).
        rewrite Hd. exact Hb1. }
      rewrite (sbend_run N element kinematics options angle l e1 e2 tilt
                 HA HL HE1 HE2 HT b1 Hf).
      destruct (lt0 angle).
      * destruct Hadd as [r Hr]; [done|]. rewrite Hr.
        eexists _, _. split; [reflexivity|]. split; [reflexivity|].
        apply sbend_command_B1.
      * destruct (np_isnan tilt); eexists _, _;
          (split; [reflexivity|]); (split; [reflexivity|]);
          apply sbend_command_B1.
    + intros x Hx. apply sbend_raises.
      by rewrite (sbend_b1_nonzero element kinematics angle l HA HL Hz).
Qed.

Lemma sbend_zero_angle_field_witness :
  ∃ cmds b,
    @sbend_to_zgoubi numpy_layer 10 Samples.sbend_straight Samples.kin
      Samples.no_options = Ok cmds
    ∧ the_bend cmds = Some b
    ∧ params b !! "B1" = Some (VQty (Q_ zero tesla)).
Proof.
  destruct (@sbend_zero_angle_field numpy_layer 10 Samples.sbend_straight
              Samples.kin Samples.no_options
              (Q_ zero radian) (Q_ (of_Z 2) meter) (num nan) (num nan) (num nan))
    as [Hzero _]; try (vm_compute; reflexivity).
  apply Hzero. vm_compute; reflexivity.
Defined.

(** C6.  A sector bend with ANGLE < 0 converts to exactly three commands,
    a ChangeRef, the bend and a ChangeRef, in this order.  With
    [r = -tilt + pi rad], where tilt is the TILT attribute or zero radian
    when it is NaN, the first ChangeRef rotates by [-r] and the second by
    [r]: each rotation is the exact negative of the other.  The sum [r]
    is the one of the unit layer: [pi rad] for a NaN TILT,
    [(-TILT + pi) rad] for a TILT in radian, [(pi + -TILT) rad] for a
    plain TILT of zero, and the plain number [pi + -TILT] for any other
    plain TILT, the quantity [pi rad] being converted to a number. *)
Theorem sbend_negative_angle `{UnitLayer} (N : nat) (element : Element)
    (kinematics : Kinematics) (options : Options)
    (angle l e1 e2 tilt b1 r : Quantity) :
  attrs element !! "ANGLE" = Some angle →
  attrs element !! "L" = Some l →
  attrs element !! "E1" = Some e1 →
  attrs element !! "E2" = Some e2 →
  attrs element !! "TILT" = Some tilt →
  lt0 angle = true →
  sbend_b1 element kinematics = Ok b1 →
  qadd (qneg (unset_as_zero tilt)) pi_rad = Ok r →
  (∃ c1 b c2 a1 a2,
      sbend_to_zgoubi N element kinematics options = Ok [c1; b; c2]
      ∧ cls c1 = ChangeRef
      ∧ cls b = default Bend (command options)
      ∧ cls c2 = ChangeRef
      ∧ label c1 = Given (name element +:+ "_CRL")
      ∧ label c2 = Given (name element +:+ "_CRR")
      ∧ rotation c1 = Some a1
      ∧ rotation c2 = Some a2
      ∧ a1 = qneg r
      ∧ a2 = r
      ∧ a2 = qneg a1
      ∧ a1 = qneg a2)
  ∧ (np_isnan tilt = true → r = Q_ (add (opp zero) pi) radian)
  ∧ (np_isnan tilt = false → units tilt = radian →
     r = Q_ (add (opp (magnitude tilt)) pi) radian)
  ∧ (np_isnan tilt = false → units tilt = dimensionless →
     eq0 tilt = true →
     r = Q_ (add pi (opp (magnitude tilt))) radian)
  ∧ (np_isnan tilt = false → units tilt = dimensionless →
     eq0 tilt = false →
     ∃ p, to_units pi_rad dimensionless = Ok p
          ∧ r = Q_ (add (magnitude p) (opp (magnitude tilt))) dimensionless).
Proof.
  intros HA HL HE1 HE2 HT Hneg Hb1 Hr. split; [|split; [|split; [|split]]].
  - rewrite (sbend_run N element kinematics options angle l e1 e2 tilt
               HA HL HE1 HE2 HT b1 Hb1).
    rewrite Hneg, Hr.
    eexists _, _, _, (qneg r), r.
    split; [reflexivity|].
    repeat split; try reflexivity.
    + apply sbend_command_cls.
    + by rewrite qneg_involutive.
  - intros Hnan. rewrite (qadd_unset_tilt tilt Hnan) in Hr. by injection Hr.
  - intros Hnan Hu. rewrite (unset_as_zero_set tilt Hnan) in Hr.
    unfold qadd in Hr. rewrite pi_rad_eq in Hr.
    rewrite is_number_radian, is_number_false in Hr
      by (simpl; rewrite Hu; apply radian_not_plain).
    simpl in Hr. rewrite Hu in Hr. case_decide; [|done].
    by injection Hr.
  - intros Hnan Hu Hz. rewrite (unset_as_zero_set tilt Hnan) in Hr.
    unfold qadd in Hr. rewrite pi_rad_eq in Hr.
    rewrite is_number_radian, is_number_true in Hr by exact Hu.
    unfold add_number in Hr. simpl in Hr.
    rewrite zero_or_nan_opp, (zero_or_nan_set _ Hnan) in Hr.
    unfold eq0 in Hz. rewrite Hz in Hr. by injection Hr.
  - intros Hnan Hu Hz. rewrite (unset_as_zero_set tilt Hnan) in Hr.
    unfold qadd in Hr.
    rewrite is_number_true in Hr by exact Hu.
    rewrite pi_rad_eq, is_number_radian in Hr. rewrite <- pi_rad_eq in Hr.
    unfold add_number in Hr. simpl in Hr.
    rewrite zero_or_nan_opp, (zero_or_nan_set _ Hnan) in Hr.
    unfold eq0 in Hz. rewrite Hz in Hr.
    destruct (to_units pi_rad dimensionless) as [p|x]; [|done].
    exists p. split; [done|]. by injection Hr.
Qed.

Lemma sbend_negative_angle_witness :
  (∃ c1 b c2,
      @sbend_to_zgoubi numpy_layer 10 Samples.sbend_negative Samples.kin
        Samples.no_options = Ok [c1; b; c2]
      ∧ rotation c1 = Some (Q_ (opp pi) radian)
      ∧ rotation c2 = Some (Q_ pi radian))
  ∧ (∃ c1 b c2,
        @sbend_to_zgoubi numpy_layer 10 Samples.sbend_negative_tilted
          Samples.kin Samples.no_options = Ok [c1; b; c2]
        ∧ rotation c1
          = Some (num (opp (add pi (opp Samples.tenth))))
        ∧ rotation c2 = Some (num (add pi (opp Samples.tenth))))
  ∧ (∃ c1 b c2,
        @sbend_to_zgoubi numpy_layer 10
          (Samples.sbend (Q_ (opp Samples.tenth) radian)
                         (Q_ Samples.tenth radian))
          Samples.kin Samples.no_options = Ok [c1; b; c2]
        ∧ rotation c1
          = Some (Q_ (opp (add (opp Samples.tenth) pi)) radian)
        ∧ rotation c2 = Some (Q_ (add (opp Samples.tenth) pi) radian)).
Proof.
  split; [|split].
  - edestruct (@sbend_negative_angle numpy_layer 10 Samples.sbend_negative
                 Samples.kin Samples.no_options
                 (Q_ (opp Samples.tenth) radian) (Q_ (of_Z 2) meter)
                 (num nan) (num nan) (num nan))
      as ((c1 & b & c2 & a1 & a2 & Hrun & _ & _ & _ & _ & _
           & H1 & H2 & E1 & E2 & _) & _);
      try (vm_compute; reflexivity).
    exists c1, b, c2. rewrite Hrun, H1, H2, E1, E2. by vm_compute.
  - edestruct (@sbend_negative_angle numpy_layer 10
                 Samples.sbend_negative_tilted
                 Samples.kin Samples.no_options
                 (Q_ (opp Samples.tenth) radian) (Q_ (of_Z 2) meter)
                 (num nan) (num nan) (num Samples.tenth))
      as ((c1 & b & c2 & a1 & a2 & Hrun & _ & _ & _ & _ & _
           & H1 & H2 & E1 & E2 & _) & _);
      try (vm_compute; reflexivity).
    exists c1, b, c2. rewrite Hrun, H1, H2, E1, E2. by vm_compute.
  - edestruct (@sbend_negative_angle numpy_layer 10
                 (Samples.sbend (Q_ (opp Samples.tenth) radian)
                                (Q_ Samples.tenth radian))
                 Samples.kin Samples.no_options
                 (Q_ (opp Samples.tenth) radian) (Q_ (of_Z 2) meter)
                 (num nan) (num nan) (Q_ Samples.tenth radian))
      as ((c1 & b & c2 & a1 & a2 & Hrun & _ & _ & _ & _ & _
           & H1 & H2 & E1 & E2 & _) & _);
      try (vm_compute; reflexivity).
    exists c1, b, c2. rewrite Hrun, H1, H2, E1, E2. by vm_compute.
Defined.

(** C7, as the claim states it, fails: with TILT unset and ANGLE < 0 the
    converter takes the negative-angle branch first and returns three
    commands, not the bend alone. *)
Lemma sbend_unset_tilt_negative_angle :
  attrs Samples.sbend_negative !! "TILT" = Some (num nan)
  ∧ np_isnan (num nan) = true
  ∧ (∃ c1 b c2,
        @sbend_to_zgoubi numpy_layer 10 Samples.sbend_negative Samples.kin
          Samples.no_options = Ok [c1; b; c2])
  ∧ ¬ (∃ b,
        @sbend_to_zgoubi numpy_layer 10 Samples.sbend_negative Samples.kin
          Samples.no_options = Ok [b]).
Proof.
  assert (Hrun : ∃ c1 b c2,
    @sbend_to_zgoubi numpy_layer 10 Samples.sbend_negative Samples.kin
      Samples.no_options = Ok [c1; b; c2]).
  { eexists _, _, _. vm_compute. reflexivity. }
  repeat split; try done.
  destruct Hrun as (c1 & b & c2 & ->). by intros [b' Hb'].
Qed.

(** C7, amended.  A sector bend whose TILT is NaN and whose ANGLE is not
    negative converts to one command, the bend alone.  A sector bend with
    ANGLE >= 0 and a TILT that is not NaN converts to three commands, a
    ChangeRef rotating by TILT, the bend, and a ChangeRef rotating by
    -TILT. *)
Theorem sbend_tilt_branches `{UnitLayer} (N : nat) (element : Element)
    (kinematics : Kinematics) (options : Options)
    (angle l e1 e2 tilt b1 : Quantity) :
  attrs element !! "ANGLE" = Some angle →
  attrs element !! "L" = Some l →
  attrs element !! "E1" = Some e1 →
  attrs element !! "E2" = Some e2 →
  attrs element !! "TILT" = Some tilt →
  sbend_b1 element kinematics = Ok b1 →
  (np_isnan tilt = true → lt0 angle = false →
   ∃ b, sbend_to_zgoubi N element kinematics options = Ok [b]
        ∧ cls b = default Bend (command options)
        ∧ params b !! "B1" = Some (VQty b1))
  ∧ (ge0 angle = true → np_isnan tilt = false →
     ∃ c1 b c2,
       sbend_to_zgoubi N element kinematics options = Ok [c1; b; c2]
       ∧ cls c1 = ChangeRef
       ∧ cls b = default Bend (command options)
       ∧ cls c2 = ChangeRef
       ∧ rotation c1 = Some tilt
       ∧ rotation c2 = Some (qneg tilt)).
Proof.
  intros HA HL HE1 HE2 HT Hb1.
  rewrite (sbend_run N element kinematics options angle l e1 e2 tilt
             HA HL HE1 HE2 HT b1 Hb1).
  split.
  - intros Hnan Hlt. rewrite Hlt, Hnan. eexists. split; [reflexivity|].
    split; [apply sbend_command_cls | apply sbend_command_B1].
  - intros Hge Hnan. rewrite (ge0_not_lt0 angle Hge), Hnan.
    rewrite (unset_as_zero_set tilt Hnan).
    eexists _, _, _. split; [reflexivity|].
    repeat split; try reflexivity. apply sbend_command_cls.
Qed.

Lemma sbend_tilt_branches_witness :
  (∃ b, @sbend_to_zgoubi numpy_layer 10 Samples.sbend_straight Samples.kin
          Samples.no_options = Ok [b])
  ∧ (∃ c1 b c2,
        @sbend_to_zgoubi numpy_layer 10 Samples.sbend_tilted Samples.kin
          Samples.no_options = Ok [c1; b; c2]
        ∧ rotation c1 = Some (Q_ Samples.tenth radian)
        ∧ rotation c2 = Some (Q_ (opp Samples.tenth) radian)).
Proof.
  split.
  - edestruct (@sbend_tilt_branches numpy_layer 10 Samples.sbend_straight
                 Samples.kin Samples.no_options
                 (Q_ zero radian) (Q_ (of_Z 2) meter)
                 (num nan) (num nan) (num nan))
      as [Hone _]; try (vm_compute; reflexivity).
    destruct Hone as (b & Hb & _); try (vm_compute; reflexivity).
    by exists b.
  - edestruct (@sbend_tilt_branches numpy_layer 10 Samples.sbend_tilted
                 Samples.kin Samples.no_options
                 (Q_ Samples.tenth radian) (Q_ (of_Z 2) meter)
                 (num nan) (num nan) (Q_ Samples.tenth radian))
      as [_ Hthree]; try (vm_compute; reflexivity).
    destruct Hthree as (c1 & b & c2 & Hrun & _ & _ & _ & H1 & H2);
      try (vm_compute; reflexivity).
    by exists c1, b, c2.
Defined.

(** C10.  A sector bend whose TILT is NaN converts to commands whose bend
    carries COLOR = 'goldenrod': the test [TILT != 0] is made on the raw
    attribute, and NaN differs from zero.  This holds on both sides of the
    branch on the sign of ANGLE. *)
Theorem sbend_unset_tilt_is_coloured `{UnitLayer} (N : nat)
    (element : Element) (kinematics : Kinematics) (options : Options)
    (angle l e1 e2 tilt b1 : Quantity) :
  attrs element !! "ANGLE" = Some angle →
  attrs element !! "L" = Some l →
  attrs element !! "E1" = Some e1 →
  attrs element !! "E2" = Some e2 →
  attrs element !! "TILT" = Some tilt →
  sbend_b1 element kinematics = Ok b1 →
  np_isnan tilt = true →
  ne0 tilt = true
  ∧ ∃ cmds b,
      sbend_to_zgoubi N element kinematics options = Ok cmds
      ∧ the_bend cmds = Some b
      ∧ cls b = default Bend (command options)
      ∧ params b !! "COLOR" = Some (VStr "goldenrod").
Proof.
  intros HA HL HE1 HE2 HT Hb1 Hnan.
  pose proof (np_isnan_ne0 tilt Hnan) as Hne.
  split; [exact Hne|].
  rewrite (sbend_run N element kinematics options angle l e1 e2 tilt
             HA HL HE1 HE2 HT b1 Hb1).
  rewrite (qadd_unset_tilt tilt Hnan), Hnan.
  destruct (lt0 angle); eexists _, _;
    (split; [reflexivity|]); (split; [reflexivity|]);
    (split; [apply sbend_command_cls | by apply sbend_command_COLOR]).
Qed.

Lemma sbend_unset_tilt_is_coloured_witness :
  ∃ cmds b,
    @sbend_to_zgoubi numpy_layer 10 Samples.sbend_negative Samples.kin
      Samples.no_options = Ok cmds
    ∧ the_bend cmds = Some b
    ∧ cls b = Bend
    ∧ params b !! "COLOR" = Some (VStr "goldenrod").
Proof.
  edestruct (@sbend_unset_tilt_is_coloured numpy_layer 10
               Samples.sbend_negative Samples.kin Samples.no_options
               (Q_ (opp Samples.tenth) radian) (Q_ (of_Z 2) meter)
               (num nan) (num nan) (num nan))
    as [_ Hcol]; try (vm_compute; reflexivity).
  exact Hcol.
Defined.

(** ** The quadrupole *)

Lemma quadrupole_gradient_K1 (element : Element) (k1 : Quantity) :
  get element "K1" = Some k1 →
  quadrupole_gradient element = Ok (div_unit k1 (unit_pow meter 2)).
Proof.
  intros Hk1. unfold quadrupole_gradient.
  case_decide as Hsome; [|congruence].
  unfold get in Hk1. by run.
Qed.

Lemma quadrupole_gradient_no_K1 (element : Element) :
  get element "K1" = None →
  quadrupole_gradient element
  = Raise (KeyError "K1 and K1L cannot be defined at the same time.").
Proof.
  intros Hk1. unfold quadrupole_gradient.
  case_decide as Hsome; [congruence | done].
Qed.

(** Whatever K1L is, the converter returns when K1 is present ... *)
Lemma quadrupole_with_K1 (N : nat) (element : Element)
    (kinematics : Kinematics) (options : Options) (k1 l : Quantity) :
  get element "K1" = Some k1 →
  attrs element !! "L" = Some l →
  ∃ c, quadrupole_to_zgoubi N element kinematics options = Ok [c]
       ∧ cls c = Quadrupole
       ∧ params c !! "B0"
         = Some (VQty (qmul (qmul (div_unit k1 (unit_pow meter 2))
                                  (brho kinematics))
                            (default cm10 (R0 options)))).
Proof.
  intros Hk1 Hl. unfold quadrupole_to_zgoubi.
  rewrite (quadrupole_gradient_K1 element k1 Hk1). run.
  by eexists.
Qed.

(** ... and raises when K1 is absent. *)
Lemma quadrupole_without_K1 (N : nat) (element : Element)
    (kinematics : Kinematics) (options : Options) :
  get element "K1" = None →
  quadrupole_to_zgoubi N element kinematics options
  = Raise (KeyError "K1 and K1L cannot be defined at the same time.").
Proof.
  intros Hk1. unfold quadrupole_to_zgoubi.
  by rewrite (quadrupole_gradient_no_K1 element Hk1).
Qed.

(** C3.  On an element with both K1 and K1L set the converter raises
    nothing: it returns one Quadrupole command, built from K1. *)
Theorem quadrupole_K1_and_K1L_returns :
  get Samples.quadrupole_K1_K1L "K1" = Some (num one)
  ∧ get Samples.quadrupole_K1_K1L "K1L" = Some (num one)
  ∧ ∃ c, quadrupole_to_zgoubi 10 Samples.quadrupole_K1_K1L Samples.kin
           Samples.no_options = Ok [c]
         ∧ cls c = Quadrupole.
Proof.
  split; [reflexivity|]. split; [reflexivity|].
  eexists. split; [vm_compute; reflexivity | reflexivity].
Qed.

(** C4.  On an element with neither K1 nor K1L the converter sets the
    gradient to zero and then raises the KeyError of its guard: no command
    is returned. *)
Theorem quadrupole_neither_K1_nor_K1L_raises :
  get Samples.quadrupole_bare "K1" = None
  ∧ get Samples.quadrupole_bare "K1L" = None
  ∧ quadrupole_to_zgoubi 10 Samples.quadrupole_bare Samples.kin
      Samples.no_options
    = Raise (KeyError "K1 and K1L cannot be defined at the same time.").
Proof. repeat split; vm_compute; reflexivity. Qed.

(** ** The rectangular bend *)

Lemma rbend_run `{UnitLayer} (element : Element) (kinematics : Kinematics)
    (options : Options) (l angle k1l tilt d b1 g : Quantity) (r : float) :
  attrs element !! "L" = Some l →
  attrs element !! "ANGLE" = Some angle →
  attrs element !! "K1L" = Some k1l →
  attrs element !! "TILT" = Some tilt →
  qdiv l angle = Ok d →
  qdiv (brho kinematics) (mul_unit d meter) = Ok b1 →
  qdiv k1l l = Ok g →
  m_as (default cm10 (R0 options)) meter = Ok r →
  rbend_to_zgoubi element kinematics options
  = Ok [generate_label
          (new Multipole NoLabel
             [("XL", VQty (mul_unit l meter));
              ("R0", VQty (default cm10 (R0 options)));
              ("B1", VQty b1);
              ("B2", VQty (mul_unit (qmul (qmul g (num (brho_ kinematics)))
                                          (num r)) tesla));
              ("R1", VQty (mul_unit tilt radian));
              ("R2", VQty (mul_unit tilt radian));
              ("KPOS", VInt 3)])
          (name element)].
Proof.
  intros HL HA HK HT Hd Hb1 Hg Hr. unfold rbend_to_zgoubi. run.
  rewrite Hd. cbv beta iota. rewrite Hb1. cbv beta iota.
  rewrite Hg. cbv beta iota. rewrite Hr. reflexivity.
Qed.

Lemma rbend_zero_angle_python (element : Element) (kinematics : Kinematics)
    (options : Options) (l angle : Quantity) :
  attrs element !! "L" = Some l →
  attrs element !! "ANGLE" = Some angle →
  eq0 angle = true →
  @rbend_to_zgoubi python_layer element kinematics options
  = Raise ZeroDivisionError.
Proof.
  intros HL HA Hz. unfold rbend_to_zgoubi. run.
  unfold qdiv, mag_div, python_layer. unfold eq0 in Hz. by rewrite Hz.
Qed.

(** C8.  A rectangular bend converts to exactly one Multipole command with
    [B1 = brho / (L / ANGLE * m)], [R1 = R2 = TILT rad] and [KPOS = 3],
    the quotients being those of the unit layer.  For L = 2 and
    ANGLE = 0.1 the quotient L / ANGLE is the binary64 20, so that
    [B1 = brho / 20 m].  Nothing guards a zero angle: the division by
    ANGLE is evaluated for every ANGLE, and where a zero divisor raises,
    the converter raises ZeroDivisionError. *)
Theorem rbend_multipole :
  (∀ (U : UnitLayer) (element : Element) (kinematics : Kinematics)
     (options : Options) (l angle k1l tilt d b1 g : Quantity) (r : float),
      attrs element !! "L" = Some l →
      attrs element !! "ANGLE" = Some angle →
      attrs element !! "K1L" = Some k1l →
      attrs element !! "TILT" = Some tilt →
      qdiv l angle = Ok d →
      qdiv (brho kinematics) (mul_unit d meter) = Ok b1 →
      qdiv k1l l = Ok g →
      m_as (default cm10 (R0 options)) meter = Ok r →
      ∃ m, rbend_to_zgoubi element kinematics options = Ok [m]
           ∧ cls m = Multipole
           ∧ params m !! "B1" = Some (VQty b1)
           ∧ params m !! "R1" = Some (VQty (mul_unit tilt radian))
           ∧ params m !! "R2" = Some (VQty (mul_unit tilt radian))
           ∧ params m !! "KPOS" = Some (VInt 3))
  ∧ (∀ kinematics : Kinematics,
        @qdiv numpy_layer (num (of_Z 2)) (num Samples.tenth)
        = Ok (num (of_Z 20))
        ∧ ∃ m,
            @rbend_to_zgoubi numpy_layer (Samples.rbend Samples.tenth)
              kinematics Samples.no_options = Ok [m]
            ∧ @qdiv numpy_layer (brho kinematics) (Q_ (of_Z 20) meter)
              = Ok (Q_ (div (magnitude (brho kinematics)) (of_Z 20))
                       (unit_div (units (brho kinematics)) meter))
            ∧ params m !! "B1"
              = Some (VQty (Q_ (div (magnitude (brho kinematics)) (of_Z 20))
                               (unit_div (units (brho kinematics)) meter))))
  ∧ (∀ (element : Element) (kinematics : Kinematics) (options : Options)
       (l angle : Quantity),
        attrs element !! "L" = Some l →
        attrs element !! "ANGLE" = Some angle →
        eq0 angle = true →
        @rbend_to_zgoubi python_layer element kinematics options
        = Raise ZeroDivisionError).
Proof.
  split; [|split].
  - intros U element kinematics options l angle k1l tilt d b1 g r
      HL HA HK HT Hd Hb1 Hg Hr.
    rewrite (rbend_run element kinematics options l angle k1l tilt d b1 g r
               HL HA HK HT Hd Hb1 Hg Hr).
    eexists. split; [reflexivity|]. by repeat split.
  - intros kinematics.
    assert (Hd : @qdiv numpy_layer (num (of_Z 2)) (num Samples.tenth)
                 = Ok (num (of_Z 20))) by (vm_compute; reflexivity).
    split; [exact Hd|].
    assert (Hg : ∃ g, @qdiv numpy_layer (num zero) (num (of_Z 2)) = Ok g)
      by (eexists; vm_compute; reflexivity).
    assert (Hr : ∃ r, @m_as numpy_layer (default cm10 (R0 Samples.no_options))
                        meter = Ok r)
      by (eexists; vm_compute; reflexivity).
    destruct Hg as [g Hg], Hr as [r Hr].
    rewrite (@rbend_run numpy_layer (Samples.rbend Samples.tenth) kinematics
               Samples.no_options (num (of_Z 2)) (num Samples.tenth)
               (num zero) (num zero) (num (of_Z 20))
               (Q_ (div (magnitude (brho kinematics)) (of_Z 20))
                   (unit_div (units (brho kinematics)) meter))
               g r eq_refl eq_refl eq_refl eq_refl Hd eq_refl Hg Hr).
    eexists. split; [reflexivity|]. split; reflexivity.
  - apply rbend_zero_angle_python.
Qed.

Lemma rbend_multipole_witness :
  ∃ m, @rbend_to_zgoubi numpy_layer (Samples.rbend Samples.tenth)
         Samples.kin Samples.no_options = Ok [m]
       ∧ cls m = Multipole
       ∧ params m !! "KPOS" = Some (VInt 3).
Proof.
  edestruct (proj1 rbend_multipole numpy_layer (Samples.rbend Samples.tenth)
               Samples.kin Samples.no_options
               (num (of_Z 2)) (num Samples.tenth) (num zero) (num zero))
    as (m & Hrun & Hcls & _ & _ & _ & Hkpos);
    try (vm_compute; reflexivity).
  by exists m.
Defined.

(** ** The travelling-wave cavity *)

Lemma qadd_plain `{UnitLayer} (x y : float) :
  qadd (num x) (num y) = Ok (num (add x y)).
Proof. reflexivity. Qed.

(** C9.  A travelling-wave cavity converts to exactly two commands, in
    this order: a Drift of length 1 mm, then a Cavite with [IOPT = 10],
    [XL = 1 m], [FREQ] the FREQ attribute in MHz, [V] the VOLT attribute
    in MV times the sign of brho, and [PHI_S = LAG + pi/2] in radian.
    The sum is a plain number, so that PHI_S is in radian whatever LAG
    is: the float sum for a plain LAG, and for a LAG that is a quantity
    the sum of its magnitude, once converted to a number, and pi/2. *)
Theorem twcavity_commands `{UnitLayer} (N : nat) (element : Element)
    (kinematics : Kinematics) (options : Options)
    (freq volt lag s : Quantity) :
  attrs element !! "FREQ" = Some freq →
  attrs element !! "VOLT" = Some volt →
  attrs element !! "LAG" = Some lag →
  qadd lag (num half_pi) = Ok s →
  (∃ d c,
      twcavity_to_zgoubi N element kinematics options = Ok [d; c]
      ∧ cls d = Drift
      ∧ params d !! "XL" = Some (VQty (Q_ one mm))
      ∧ cls c = Cavite
      ∧ params c !! "IOPT" = Some (VInt 10)
      ∧ params c !! "XL" = Some (VQty (Q_ one meter))
      ∧ params c !! "FREQ" = Some (VQty (mul_unit freq MHz))
      ∧ params c !! "V"
        = Some (VQty (qmul (mul_unit volt MV) (np_sign (brho kinematics))))
      ∧ params c !! "PHI_S" = Some (VQty (mul_unit s radian)))
  ∧ mul_unit s radian = Q_ (magnitude s) radian
  ∧ (units lag = dimensionless →
     magnitude s = add (magnitude lag) half_pi)
  ∧ (units lag ≠ dimensionless →
     ∃ lag', to_units lag dimensionless = Ok lag'
             ∧ magnitude s = add (magnitude lag') half_pi).
Proof.
  intros HF HV HL Hs. split.
  { unfold twcavity_to_zgoubi. run.
    rewrite Hs. cbv beta iota.
    eexists _, _. split; [reflexivity|]. by repeat split. }
  unfold qadd in Hs. change (is_number (num half_pi)) with true in Hs.
  destruct (is_number lag) eqn:Hn.
  - apply bool_decide_eq_true in Hn. injection Hs as <-.
    split; [reflexivity|]. split; [done|]. by intros Hne.
  - apply bool_decide_eq_false in Hn.
    unfold add_number in Hs.
    change (zero_or_nan (magnitude (num half_pi))) with false in Hs.
    destruct (to_units lag dimensionless) as [lag'|x]; [|done].
    injection Hs as <-.
    split; [reflexivity|]. split; [done|]. intros _. by exists lag'.
Qed.

Lemma twcavity_commands_witness :
  (∃ d c,
      @twcavity_to_zgoubi numpy_layer 10 Samples.twcavity Samples.kin
        Samples.no_options = Ok [d; c]
      ∧ cls d = Drift
      ∧ cls c = Cavite
      ∧ params c !! "PHI_S" = Some (VQty (Q_ (add zero half_pi) radian)))
  ∧ (∃ d c,
        @twcavity_to_zgoubi numpy_layer 10 Samples.twcavity_radian
          Samples.kin Samples.no_options = Ok [d; c]
        ∧ params c !! "PHI_S"
          = Some (VQty (Q_ (add Samples.tenth half_pi) radian))).
Proof.
  split.
  - destruct (@twcavity_commands numpy_layer 10 Samples.twcavity Samples.kin
                Samples.no_options
                (num (of_Z 3000)) (num (of_Z 10)) (num zero)
                (num (add zero half_pi)) eq_refl eq_refl eq_refl
                (qadd_plain zero half_pi))
      as ((d & c & Hrun & Hd & _ & Hc & _ & _ & _ & _ & Hphi) & _).
    exists d, c. by rewrite Hrun, Hd, Hc, Hphi.
  - edestruct (@twcavity_commands numpy_layer 10 Samples.twcavity_radian
                 Samples.kin Samples.no_options
                 (num (of_Z 3000)) (num (of_Z 10)) (Q_ Samples.tenth radian))
      as ((d & c & Hrun & _ & _ & _ & _ & _ & _ & _ & Hphi) & _);
      try (vm_compute; reflexivity).
    exists d, c. split; [exact Hrun|]. rewrite Hphi. by vm_compute.
Defined.

(** ** Survey *)

Section SurveyFacts.
Context {Frame PState OState : Type}.
Variable Frame_new : Frame.
Variable place : PState → Frame → PState * option exn.
Variable exit : PState → Frame.

Abbreviation loop := (survey_loop place exit).

Lemma is_patchable_insert (h : gmap addr (Object PState OState))
    (e a : addr) (p p' : PState) :
  h !! e = Some (IsPatchable p) →
  is_patchable (<[e := IsPatchable p']> h) a = is_patchable h a.
Proof.
  intros He. unfold is_patchable.
  destruct (decide (e = a)) as [->|Hne].
  - by rewrite lookup_insert_eq, He.
  - by rewrite lookup_insert_ne.
Qed.

Lemma survey_loop_chained (es : list addr)
    (h : gmap addr (Object PState OState)) (f : Frame) :
  chained f (calls (loop es h f)).
Proof.
  revert h f. induction es as [|e es IH]; intros h f; simpl; [done|].
  destruct (h !! e) as [[p|o]|]; [|apply IH..].
  destruct (place p f) as [p' [x|]]; simpl; [done|].
  split; [done | apply IH].
Qed.

Lemma survey_loop_exits (es : list addr)
    (h : gmap addr (Object PState OState)) (f : Frame) :
  Forall (λ c, ∃ p, exit_frame c = exit (place p (entry_frame c)).1)
         (calls (loop es h f)).
Proof.
  revert h f. induction es as [|e es IH]; intros h f; simpl; [done|].
  destruct (h !! e) as [[p|o]|]; [|apply IH..].
  destruct (place p f) as [p' [x|]] eqn:Hp; simpl; [done|].
  constructor; [|apply IH].
  exists p. simpl. by rewrite Hp.
Qed.

Lemma survey_loop_returns (es : list addr)
    (h : gmap addr (Object PState OState)) (f : Frame) :
  (∀ p g, (place p g).2 = None) →
  raised (loop es h f) = None.
Proof.
  intros Hplace. revert h f.
  induction es as [|e es IH]; intros h f; simpl; [done|].
  destruct (h !! e) as [[p|o]|]; [|apply IH..].
  pose proof (Hplace p f) as Hp.
  destruct (place p f) as [p' [x|]]; simpl in *; [done | apply IH].
Qed.

Lemma survey_loop_targets (es : list addr)
    (h : gmap addr (Object PState OState)) (f : Frame) :
  raised (loop es h f) = None →
  target <$> calls (loop es h f) = List.filter (is_patchable h) es.
Proof.
  revert h f. induction es as [|e es IH]; intros h f; simpl; [done|].
  unfold is_patchable at 1.
  destruct (h !! e) as [[p|o]|] eqn:He; [|apply IH..].
  destruct (place p f) as [p' [x|]]; simpl; [done|].
  intros Hr. f_equal.
  change (target <$> calls (loop es (<[e:=IsPatchable p']> h) (exit p'))
          = List.filter (is_patchable h) es).
  rewrite (IH _ _ Hr).
  apply List.filter_ext. intros a. by apply is_patchable_insert with p.
Qed.

(** The loop writes at the addresses of its line only. *)
Lemma survey_loop_elsewhere (es : list addr)
    (h : gmap addr (Object PState OState)) (f : Frame) (a : addr) :
  a ∉ es → heap (loop es h f) !! a = h !! a.
Proof.
  revert h f. induction es as [|e es IH]; intros h f Ha; simpl; [done|].
  apply not_elem_of_cons in Ha as [Hne Ha].
  destruct (h !! e) as [[p|o]|]; [|by apply IH..].
  destruct (place p f) as [p' [x|]]; simpl.
  - by rewrite lookup_insert_ne.
  - rewrite IH by done. by rewrite lookup_insert_ne.
Qed.

Lemma survey_loop_final_exits (es : list addr)
    (h : gmap addr (Object PState OState)) (f : Frame) :
  NoDup es →
  Forall (λ c, ∃ p', heap (loop es h f) !! target c = Some (IsPatchable p')
                     ∧ exit p' = exit_frame c)
         (calls (loop es h f)).
Proof.
  intros Hnd. revert h f.
  induction Hnd as [|e es He Hnd IH]; intros h f; simpl; [done|].
  destruct (h !! e) as [[p|o]|]; [|apply IH..].
  destruct (place p f) as [p' [x|]]; simpl; [done|].
  constructor; [|apply IH].
  exists p'. simpl. split; [|done].
  rewrite survey_loop_elsewhere by done. apply lookup_insert_eq.
Qed.

(** An object that is not Patchable keeps its state. *)
Lemma survey_loop_keeps_other (es : list addr)
    (h : gmap addr (Object PState OState)) (f : Frame) (a : addr) (o : OState) :
  h !! a = Some (NotPatchable o) →
  heap (loop es h f) !! a = Some (NotPatchable o).
Proof.
  revert h f. induction es as [|e es IH]; intros h f Ha; simpl; [done|].
  destruct (h !! e) as [[p|o']|] eqn:He; [|by apply IH..].
  assert (e ≠ a) by congruence.
  destruct (place p f) as [p' [x|]]; simpl.
  - by rewrite lookup_insert_ne.
  - apply IH. by rewrite lookup_insert_ne.
Qed.

(** The loop runs the same with or without a non-Patchable element. *)
Lemma survey_loop_skip (l1 l2 : list addr)
    (h : gmap addr (Object PState OState)) (f : Frame) (a : addr) (o : OState) :
  h !! a = Some (NotPatchable o) →
  loop (l1 ++ a :: l2) h f = loop (l1 ++ l2) h f.
Proof.
  revert h f. induction l1 as [|e l1 IH]; intros h f Ha; simpl.
  - by rewrite Ha.
  - destruct (h !! e) as [[p|o']|] eqn:He; [|by apply IH..].
    assert (e ≠ a) by congruence.
    destruct (place p f) as [p' [x|]]; [done|].
    rewrite IH; [done|]. by rewrite lookup_insert_ne.
Qed.

(** C1.  When no placement raises, [survey] returns a new Input with the
    name and the very element list of the beamline.  It calls [place]
    on the Patchable elements of the line, in the order of the line and
    on no other element; the first call gets the reference frame, or a
    default frame when none is given, and every later call gets the frame
    read from [exit] of the element placed just before.  Each frame read
    is the exit of the state the placement left, and when no element sits
    twice in the line it is still the exit of that element after the
    survey. *)
Theorem survey_places_in_chain (h : gmap addr (Object PState OState))
    (beamline : Input.t) (reference_frame : option Frame) :
  (∀ p f, (place p f).2 = None) →
  ∃ surveyed_line,
    returned (survey Frame_new place exit h (Some beamline) reference_frame)
    = Ok surveyed_line
    ∧ Input.name surveyed_line = Input.name beamline
    ∧ Input.line surveyed_line = Input.line beamline
    ∧ target <$> place_calls
                   (survey Frame_new place exit h (Some beamline)
                      reference_frame)
      = List.filter (is_patchable h) (items (Input.line beamline))
    ∧ chained (default Frame_new reference_frame)
        (place_calls
           (survey Frame_new place exit h (Some beamline) reference_frame))
    ∧ Forall (λ c, ∃ p, exit_frame c = exit (place p (entry_frame c)).1)
        (place_calls
           (survey Frame_new place exit h (Some beamline) reference_frame))
    ∧ (NoDup (items (Input.line beamline)) →
       Forall (λ c, ∃ p',
                 heap_after
                   (survey Frame_new place exit h (Some beamline)
                      reference_frame) !! target c
                 = Some (IsPatchable p')
                 ∧ exit p' = exit_frame c)
         (place_calls
            (survey Frame_new place exit h (Some beamline) reference_frame))).
Proof.
  intros Hplace. unfold survey. simpl.
  pose proof (survey_loop_returns (items (Input.line beamline)) h
                (default Frame_new reference_frame) Hplace) as Hr.
  rewrite Hr. eexists. split; [reflexivity|]. simpl.
  split; [done|]. split; [done|].
  split; [by apply survey_loop_targets|].
  split; [apply survey_loop_chained|].
  split; [apply survey_loop_exits|].
  apply survey_loop_final_exits.
Qed.

(** C2.  An element that is not Patchable has, after [survey], the state
    it had before, and [survey] runs as if the element were not in the
    line: the same calls to [place] with the same entry frames, the same
    heap afterwards, and the same exception if one is raised. *)
Theorem survey_skips_non_patchable (h : gmap addr (Object PState OState))
    (nm : string) (id : addr) (l1 l2 : list addr) (e : addr) (o : OState)
    (reference_frame : option Frame) :
  h !! e = Some (NotPatchable o) →
  heap_after
    (survey Frame_new place exit h
       (Some {| Input.name := nm;
                Input.line := {| list_id := id; items := l1 ++ e :: l2 |} |})
       reference_frame) !! e
  = Some (NotPatchable o)
  ∧ place_calls
      (survey Frame_new place exit h
         (Some {| Input.name := nm;
                  Input.line := {| list_id := id; items := l1 ++ e :: l2 |} |})
         reference_frame)
    = place_calls
        (survey Frame_new place exit h
           (Some {| Input.name := nm;
                    Input.line := {| list_id := id; items := l1 ++ l2 |} |})
           reference_frame)
  ∧ heap_after
      (survey Frame_new place exit h
         (Some {| Input.name := nm;
                  Input.line := {| list_id := id; items := l1 ++ e :: l2 |} |})
         reference_frame)
    = heap_after
        (survey Frame_new place exit h
           (Some {| Input.name := nm;
                    Input.line := {| list_id := id; items := l1 ++ l2 |} |})
           reference_frame)
  ∧ (∀ x,
        returned
          (survey Frame_new place exit h
             (Some {| Input.name := nm;
                      Input.line := {| list_id := id;
                                       items := l1 ++ e :: l2 |} |})
             reference_frame) = Raise x
        ↔ returned
            (survey Frame_new place exit h
               (Some {| Input.name := nm;
                        Input.line := {| list_id := id;
                                         items := l1 ++ l2 |} |})
               reference_frame) = Raise x).
Proof.
  intros He. unfold survey. simpl.
  rewrite (survey_loop_skip l1 l2 h _ e o He).
  split; [by apply survey_loop_keeps_other|].
  split; [done|]. split; [done|].
  intros x. by destruct (raised _).
Qed.
End SurveyFacts.

Lemma survey_places_in_chain_witness :
  ∃ surveyed_line,
    returned (survey 0 DriftLine.place DriftLine.exit DriftLine.h0
                (Some (DriftLine.beamline [1; 2; 3; 4]%positive)) None)
    = Ok surveyed_line
    ∧ Input.line surveyed_line
      = {| list_id := 9; items := [1; 2; 3; 4]%positive |}
    ∧ place_calls (survey 0 DriftLine.place DriftLine.exit DriftLine.h0
                     (Some (DriftLine.beamline [1; 2; 3; 4]%positive)) None)
      = [ {| target := 1; entry_frame := 0; exit_frame := 1000 |};
          {| target := 3; entry_frame := 1000; exit_frame := 3000 |};
          {| target := 4; entry_frame := 3000; exit_frame := 4500 |} ].
Proof.
  destruct (survey_places_in_chain 0 DriftLine.place DriftLine.exit
              DriftLine.h0 (DriftLine.beamline [1; 2; 3; 4]%positive) None)
    as (surveyed_line & Hret & _ & Hline & _).
  - intros p f. reflexivity.
  - exists surveyed_line. split; [exact Hret|]. split; [exact Hline|].
    vm_compute. reflexivity.
Defined.

Lemma survey_skips_non_patchable_witness :
  heap_after
    (survey 0 DriftLine.place DriftLine.exit DriftLine.h0
       (Some (DriftLine.beamline ([1%positive] ++ 2%positive :: [3; 4]%positive))) None)
  !! 2%positive = Some (NotPatchable ())
  ∧ place_calls
      (survey 0 DriftLine.place DriftLine.exit DriftLine.h0
         (Some (DriftLine.beamline ([1%positive] ++ 2%positive :: [3; 4]%positive))) None)
    = place_calls
        (survey 0 DriftLine.place DriftLine.exit DriftLine.h0
           (Some (DriftLine.beamline ([1%positive] ++ [3; 4]%positive))) None).
Proof.
  destruct (survey_skips_non_patchable 0 DriftLine.place DriftLine.exit
              DriftLine.h0 "LINE" 9%positive [1%positive] [3; 4]%positive
              2%positive () None)
    as (Hstate & Hcalls & _).
  - vm_compute. reflexivity.
  - split; [exact Hstate | exact Hcalls].
Defined.

(** The same drift twice in a line: both placements are chained, and the
    drift keeps the second one only. *)
Example survey_same_element_twice :
  place_calls (survey 0 DriftLine.place DriftLine.exit DriftLine.h0
                 (Some (DriftLine.beamline [1; 1]%positive)) None)
  = [ {| target := 1; entry_frame := 0; exit_frame := 1000 |};
      {| target := 1; entry_frame := 1000; exit_frame := 2000 |} ]
  ∧ heap_after (survey 0 DriftLine.place DriftLine.exit DriftLine.h0
                  (Some (DriftLine.beamline [1; 1]%positive)) None)
    !! 1%positive
    = Some (IsPatchable {| DriftLine.length_mm := 1000;
                           DriftLine.entry := Some 1000 |}).
Proof. split; vm_compute; reflexivity. Qed.

(** * Further properties of the converters *)

(** ** Results, reads and labels *)

Lemma bind_Ok {A B : Type} (m : result A) (f : A → result B) (b : B) :
  m ≫= f = Ok b → ∃ a, m = Ok a ∧ f a = Ok b.
Proof. destruct m as [a|x]; [by exists a | done]. Qed.

Lemma getitem_Ok (element : Element) (key : string) (q : Quantity) :
  getitem element key = Ok q → attrs element !! key = Some q.
Proof. unfold getitem. by destruct (attrs element !! key); intros [= ->]. Qed.

Lemma nan_as_zero_Ok (element : Element) (key : string) (q : Quantity) :
  nan_as_zero element key = Ok q → is_Some (attrs element !! key).
Proof.
  intros (v & Hv%getitem_Ok & _)%bind_Ok. by exists v.
Qed.

Lemma substring_length (n : nat) (s : string) :
  String.length (String.substring 0 n s) = Nat.min n (String.length s).
Proof.
  revert s. induction n as [|n IH]; intros [|c s]; simpl; try done.
  by rewrite IH.
Qed.

Lemma substring_prefix (n : nat) (s : string) :
  String.prefix (String.substring 0 n s) s = true.
Proof.
  revert s. induction n as [|n IH]; intros [|c s]; simpl; try done.
  destruct (Ascii.ascii_dec c c); [apply IH | done].
Qed.

Lemma substring_short (n : nat) (s : string) :
  (String.length s ≤ n)%nat → String.substring 0 n s = s.
Proof.
  revert s. induction n as [|n IH]; intros [|c s]; simpl; try done.
  - lia.
  - intros Hle. rewrite IH; [done | lia].
Qed.

Lemma append_length (s t : string) :
  String.length (s +:+ t) = (String.length s + String.length t)%nat.
Proof. induction s as [|c s IH]; simpl; [done | by rewrite IH]. Qed.

(** ** Drift, sextupole and octupole *)

(** X1.  The drift converter returns exactly when the element carries L:
    then it gives one command of the class of the options (a Drift by
    default), labelled with the whole name of the element, whose XL is L
    as it stands; without L it raises KeyError('L'). *)
Theorem drift_to_zgoubi_reads_L (element : Element) (kinematics : Kinematics)
    (options : Options) :
  match attrs element !! "L" with
  | Some l =>
      ∃ d, drift_to_zgoubi element kinematics options = Ok [d]
           ∧ cls d = default Drift (command options)
           ∧ label d = Given (name element)
           ∧ params d !! "XL" = Some (VQty l)
           ∧ dom (params d) = {[ "XL" ]}
  | None =>
      drift_to_zgoubi element kinematics options = Raise (KeyError "L")
  end.
Proof.
  unfold drift_to_zgoubi, getitem.
  destruct (attrs element !! "L") as [l|]; [|done].
  eexists. split; [reflexivity|]. by repeat split.
Qed.

(** X2.  The sextupole and the octupole converters read nothing but the
    name and L: they return exactly when the element carries L, one
    command with XL = L m and the name cut to the label length, whatever
    the kinematics and the options are; the two results differ in the
    class only. *)
Theorem sextupole_octupole_read_L (N : nat) (element : Element)
    (kinematics : Kinematics) (options : Options) :
  match attrs element !! "L" with
  | Some l =>
      ∃ s o,
        sextupole_to_zgoubi N element kinematics options = Ok [s]
        ∧ octupole_to_zgoubi N element kinematics options = Ok [o]
        ∧ cls s = Sextupole ∧ cls o = Octupole
        ∧ label s = label o ∧ params s = params o
        ∧ label s = Given (prefix_of N (name element))
        ∧ params s !! "XL" = Some (VQty (mul_unit l meter))
  | None =>
      sextupole_to_zgoubi N element kinematics options = Raise (KeyError "L")
      ∧ octupole_to_zgoubi N element kinematics options = Raise (KeyError "L")
  end.
Proof.
  unfold sextupole_to_zgoubi, octupole_to_zgoubi, getitem.
  destruct (attrs element !! "L") as [l|]; [|done].
  eexists _, _. split; [reflexivity|]. split; [reflexivity|]. by repeat split.
Qed.

(** ** The sector bend, from its result *)

Lemma sbend_b1_Ok `{UnitLayer} (element : Element) (kinematics : Kinematics)
    (b1 : Quantity) :
  sbend_b1 element kinematics = Ok b1 → is_Some (attrs element !! "ANGLE").
Proof. intros (a & Ha%getitem_Ok & _)%bind_Ok. by exists a. Qed.

(** Whatever the converter returns, it has read the five attributes, and
    the commands are those of one of its three branches. *)
Lemma sbend_Ok_inv `{UnitLayer} (N : nat) (element : Element)
    (kinematics : Kinematics) (options : Options) (cmds : list Command) :
  sbend_to_zgoubi N element kinematics options = Ok cmds →
  ∃ angle l e1 e2 tilt b1,
    attrs element !! "ANGLE" = Some angle
    ∧ attrs element !! "L" = Some l
    ∧ attrs element !! "E1" = Some e1
    ∧ attrs element !! "E2" = Some e2
    ∧ attrs element !! "TILT" = Some tilt
    ∧ sbend_b1 element kinematics = Ok b1
    ∧ (if lt0 angle then
         ∃ r, qadd (qneg (unset_as_zero tilt)) pi_rad = Ok r
              ∧ cmds = [change_ref (name element +:+ "_CRL") (qneg r);
                        sbend_command N element options l b1
                          (unset_as_zero e1) (unset_as_zero e2) angle tilt;
                        change_ref (name element +:+ "_CRR") r]
       else if np_isnan tilt then
         cmds = [sbend_command N element options l b1
                   (unset_as_zero e1) (unset_as_zero e2) angle tilt]
       else
         cmds = [change_ref (name element +:+ "_CRL") (unset_as_zero tilt);
                 sbend_command N element options l b1
                   (unset_as_zero e1) (unset_as_zero e2) angle tilt;
                 change_ref (name element +:+ "_CRR")
                   (qneg (unset_as_zero tilt))]).
Proof.
  intros Hok. pose proof Hok as Hrun. unfold sbend_to_zgoubi in Hok.
  apply bind_Ok in Hok as (b1 & Hb1 & Hok).
  apply bind_Ok in Hok as (we & [e1 He1]%nan_as_zero_Ok & Hok).
  apply bind_Ok in Hok as (ws & [e2 He2]%nan_as_zero_Ok & Hok).
  apply bind_Ok in Hok as (t & [tilt Ht]%nan_as_zero_Ok & Hok).
  apply bind_Ok in Hok as (l & Hl%getitem_Ok & _).
  destruct (sbend_b1_Ok element kinematics b1 Hb1) as [angle Ha].
  exists angle, l, e1, e2, tilt, b1. repeat (split; [done|]).
  rewrite (sbend_run N element kinematics options angle l e1 e2 tilt
             Ha Hl He1 He2 Ht b1 Hb1) in Hrun.
  destruct (lt0 angle).
  - destruct (qadd (qneg (unset_as_zero tilt)) pi_rad) as [r|x]; [|done].
    exists r. split; [done|]. by injection Hrun as <-.
  - destruct (np_isnan tilt); by injection Hrun as <-.
Qed.

(** X3.  The sector bend converter never makes up a missing attribute: if
    it returns, the element carries ANGLE, L, E1, E2 and TILT, and the
    result is one command or three. *)
Theorem sbend_returns_only_with_attributes `{UnitLayer} (N : nat)
    (element : Element) (kinematics : Kinematics) (options : Options)
    (cmds : list Command) :
  sbend_to_zgoubi N element kinematics options = Ok cmds →
  is_Some (attrs element !! "ANGLE")
  ∧ is_Some (attrs element !! "L")
  ∧ is_Some (attrs element !! "E1")
  ∧ is_Some (attrs element !! "E2")
  ∧ is_Some (attrs element !! "TILT")
  ∧ (length cmds = 1%nat ∨ length cmds = 3%nat).
Proof.
  intros (angle & l & e1 & e2 & tilt & b1 & Ha & Hl & He1 & He2 & Ht & _ & Hc)
    %sbend_Ok_inv.
  rewrite Ha, Hl, He1, He2, Ht. repeat (split; [done|]).
  destruct (lt0 angle); [destruct Hc as (r & _ & ->); by right|].
  destruct (np_isnan tilt); subst cmds; [by left | by right].
Qed.

Lemma sbend_returns_only_with_attributes_witness :
  is_Some (attrs Samples.sbend_tilted !! "TILT").
Proof.
  edestruct (@sbend_returns_only_with_attributes numpy_layer 10
               Samples.sbend_tilted Samples.kin Samples.no_options)
    as (_ & _ & _ & _ & Ht & _); [vm_compute; reflexivity|].
  exact Ht.
Defined.

(** X4.  Whenever the sector bend converter returns three commands, the
    outer two are ChangeRef commands labelled name_CRL and name_CRR, and
    the second rotation is the exact negative of the first (and the first
    of the second): the two changes of reference cancel, in the
    negative-angle branch as in the tilt branch. *)
Theorem sbend_changerefs_cancel `{UnitLayer} (N : nat) (element : Element)
    (kinematics : Kinematics) (options : Options) (c1 b c2 : Command) :
  sbend_to_zgoubi N element kinematics options = Ok [c1; b; c2] →
  ∃ a, cls c1 = ChangeRef ∧ cls c2 = ChangeRef
       ∧ label c1 = Given (name element +:+ "_CRL")
       ∧ label c2 = Given (name element +:+ "_CRR")
       ∧ rotation c1 = Some a
       ∧ rotation c2 = Some (qneg a)
       ∧ a = qneg (qneg a).
Proof.
  intros (angle & l & e1 & e2 & tilt & b1 & _ & _ & _ & _ & _ & _ & Hc)
    %sbend_Ok_inv.
  destruct (lt0 angle).
  - destruct Hc as (r & _ & [= -> -> ->]).
    exists (qneg r). rewrite !rotation_change_ref, !qneg_involutive.
    by repeat split.
  - destruct (np_isnan tilt); [done|]. injection Hc as -> -> ->.
    exists (unset_as_zero tilt).
    rewrite !rotation_change_ref, !qneg_involutive. by repeat split.
Qed.

Lemma sbend_changerefs_cancel_witness :
  ∃ c1 b c2 a,
    @sbend_to_zgoubi numpy_layer 10 Samples.sbend_tilted Samples.kin
      Samples.no_options = Ok [c1; b; c2]
    ∧ rotation c1 = Some a ∧ rotation c2 = Some (qneg a).
Proof.
  assert (Hrun : ∃ c1 b c2,
    @sbend_to_zgoubi numpy_layer 10 Samples.sbend_tilted Samples.kin
      Samples.no_options = Ok [c1; b; c2])
    by (eexists _, _, _; vm_compute; reflexivity).
  destruct Hrun as (c1 & b & c2 & Hrun).
  destruct (@sbend_changerefs_cancel numpy_layer 10 Samples.sbend_tilted
              Samples.kin Samples.no_options c1 b c2 Hrun)
    as (a & _ & _ & _ & _ & H1 & H2 & _).
  by exists c1, b, c2, a.
Defined.

Lemma sbend_command_fields N element options l b1 we ws angle tilt :
  label (sbend_command N element options l b1 we ws angle tilt)
  = Given (prefix_of N (name element))
  ∧ params (sbend_command N element options l b1 we ws angle tilt) !! "XL"
    = Some (VQty l)
  ∧ params (sbend_command N element options l b1 we ws angle tilt) !! "KPOS"
    = Some (VInt 3)
  ∧ params (sbend_command N element options l b1 we ws angle tilt) !! "W_E"
    = Some (VQty (qmul we (np_sign angle)))
  ∧ params (sbend_command N element options l b1 we ws angle tilt) !! "W_S"
    = Some (VQty (qmul ws (np_sign angle)))
  ∧ params (sbend_command N element options l b1 we ws angle tilt) !! "COLOR"
    = (if ne0 tilt then Some (VStr "goldenrod") else None).
Proof. unfold sbend_command. by destruct (ne0 tilt). Qed.

Lemma sbend_Ok_bend `{UnitLayer} (N : nat) (element : Element)
    (kinematics : Kinematics) (options : Options) (cmds : list Command)
    (angle l e1 e2 tilt : Quantity) :
  attrs element !! "ANGLE" = Some angle →
  attrs element !! "L" = Some l →
  attrs element !! "E1" = Some e1 →
  attrs element !! "E2" = Some e2 →
  attrs element !! "TILT" = Some tilt →
  sbend_to_zgoubi N element kinematics options = Ok cmds →
  ∃ b1, the_bend cmds
        = Some (sbend_command N element options l b1
                  (unset_as_zero e1) (unset_as_zero e2) angle tilt).
Proof.
  intros Ha Hl He1 He2 Ht
    (angle' & l' & e1' & e2' & tilt' & b1 & Ha' & Hl' & He1' & He2' & Ht'
     & _ & Hc)%sbend_Ok_inv.
  simplify_eq. exists b1.
  destruct (lt0 angle); [by destruct Hc as (r & _ & ->)|].
  by destruct (np_isnan tilt); subst cmds.
Qed.

(** X5.  In every result of the sector bend converter the bend has the
    name cut to the label length as its label, XL = L, KPOS = 3, and the
    pole-face angles W_E and W_S are E1 and E2, read as zero radian when
    NaN, each multiplied by the sign of ANGLE. *)
Theorem sbend_pole_faces `{UnitLayer} (N : nat) (element : Element)
    (kinematics : Kinematics) (options : Options) (cmds : list Command)
    (angle l e1 e2 tilt : Quantity) :
  attrs element !! "ANGLE" = Some angle →
  attrs element !! "L" = Some l →
  attrs element !! "E1" = Some e1 →
  attrs element !! "E2" = Some e2 →
  attrs element !! "TILT" = Some tilt →
  sbend_to_zgoubi N element kinematics options = Ok cmds →
  ∃ b, the_bend cmds = Some b
       ∧ label b = Given (prefix_of N (name element))
       ∧ params b !! "XL" = Some (VQty l)
       ∧ params b !! "KPOS" = Some (VInt 3)
       ∧ params b !! "W_E"
         = Some (VQty (qmul (if np_isnan e1 then Q_ zero radian else e1)
                            (np_sign angle)))
       ∧ params b !! "W_S"
         = Some (VQty (qmul (if np_isnan e2 then Q_ zero radian else e2)
                            (np_sign angle))).
Proof.
  intros Ha Hl He1 He2 Ht Hok.
  destruct (sbend_Ok_bend N element kinematics options cmds angle l e1 e2 tilt
              Ha Hl He1 He2 Ht Hok) as [b1 Hb].
  eexists. split; [exact Hb|].
  destruct (sbend_command_fields N element options l b1 (unset_as_zero e1)
              (unset_as_zero e2) angle tilt)
    as (Hlab & Hxl & Hk & Hwe & Hws & _).
  by repeat split.
Qed.

Lemma sbend_pole_faces_witness :
  ∃ cmds b,
    @sbend_to_zgoubi numpy_layer 10 Samples.sbend_negative Samples.kin
      Samples.no_options = Ok cmds
    ∧ the_bend cmds = Some b
    ∧ params b !! "W_E"
      = Some (VQty (qmul (Q_ zero radian)
                         (np_sign (Q_ (opp Samples.tenth) radian)))).
Proof.
  assert (Hrun : ∃ cmds,
    @sbend_to_zgoubi numpy_layer 10 Samples.sbend_negative Samples.kin
      Samples.no_options = Ok cmds) by (eexists; vm_compute; reflexivity).
  destruct Hrun as [cmds Hrun].
  destruct (@sbend_pole_faces numpy_layer 10 Samples.sbend_negative
              Samples.kin Samples.no_options cmds
              (Q_ (opp Samples.tenth) radian) (Q_ (of_Z 2) meter)
              (num nan) (num nan) (num nan)
              eq_refl eq_refl eq_refl eq_refl eq_refl Hrun)
    as (b & Hb & _ & _ & _ & Hwe & _).
  by exists cmds, b.
Defined.

(** X6.  The bend carries the COLOR annotation exactly when the raw TILT
    attribute differs from zero: 'goldenrod' for a non-zero or NaN TILT,
    no COLOR at all for a TILT of plus or minus zero. *)
Theorem sbend_colour_iff_tilt_differs_from_zero `{UnitLayer} (N : nat)
    (element : Element) (kinematics : Kinematics) (options : Options)
    (cmds : list Command) (tilt : Quantity) :
  attrs element !! "TILT" = Some tilt →
  sbend_to_zgoubi N element kinematics options = Ok cmds →
  ∃ b, the_bend cmds = Some b
       ∧ (eq0 tilt = false → params b !! "COLOR" = Some (VStr "goldenrod"))
       ∧ (eq0 tilt = true → params b !! "COLOR" = None).
Proof.
  intros Ht Hok.
  destruct (sbend_Ok_inv N element kinematics options cmds Hok)
    as (angle & l & e1 & e2 & tilt' & b1 & Ha & Hl & He1 & He2 & Ht' & _).
  simplify_eq.
  destruct (sbend_Ok_bend N element kinematics options cmds angle l e1 e2 tilt
              Ha Hl He1 He2 Ht Hok) as [b1' Hb].
  eexists. split; [exact Hb|].
  destruct (sbend_command_fields N element options l b1' (unset_as_zero e1)
              (unset_as_zero e2) angle tilt) as (_ & _ & _ & _ & _ & Hcol).
  rewrite Hcol. unfold ne0. by split; intros ->.
Qed.

Lemma sbend_colour_iff_tilt_differs_from_zero_witness :
  ∃ cmds b,
    @sbend_to_zgoubi numpy_layer 10
      (Samples.sbend (Q_ Samples.tenth radian) (Q_ zero radian))
      Samples.kin Samples.no_options = Ok cmds
    ∧ the_bend cmds = Some b
    ∧ params b !! "COLOR" = None.
Proof.
  assert (Hrun : ∃ cmds,
    @sbend_to_zgoubi numpy_layer 10
      (Samples.sbend (Q_ Samples.tenth radian) (Q_ zero radian))
      Samples.kin Samples.no_options = Ok cmds)
    by (eexists; vm_compute; reflexivity).
  destruct Hrun as [cmds Hrun].
  destruct (@sbend_colour_iff_tilt_differs_from_zero numpy_layer 10
              (Samples.sbend (Q_ Samples.tenth radian) (Q_ zero radian))
              Samples.kin Samples.no_options cmds (Q_ zero radian)
              eq_refl Hrun)
    as (b & Hb & _ & Hnone).
  exists cmds, b. split; [exact Hrun|]. split; [exact Hb|].
  apply Hnone. reflexivity.
Defined.

(** X7.  Labels of the sector bend: the label of the bend is a prefix of
    the element name of at most the label length, and the name itself when
    the name is short enough; the labels of the two ChangeRef commands are
    the whole name followed by four characters, whatever the label length
    is. *)
Theorem sbend_labels `{UnitLayer} (N : nat) (element : Element)
    (kinematics : Kinematics) (options : Options) (c1 b c2 : Command) :
  sbend_to_zgoubi N element kinematics options = Ok [c1; b; c2] →
  ∃ s1 s s2,
    label c1 = Given s1 ∧ label b = Given s ∧ label c2 = Given s2
    ∧ (String.length s ≤ N)%nat
    ∧ String.prefix s (name element) = true
    ∧ ((String.length (name element) ≤ N)%nat → s = name element)
    ∧ String.length s1 = (String.length (name element) + 4)%nat
    ∧ String.length s2 = (String.length (name element) + 4)%nat.
Proof.
  intros Hok.
  destruct (sbend_Ok_inv N element kinematics options _ Hok)
    as (angle & l & e1 & e2 & tilt & b1 & Ha & Hl & He1 & He2 & Ht & _ & Hc).
  destruct (sbend_command_fields N element options l b1 (unset_as_zero e1)
              (unset_as_zero e2) angle tilt) as (Hlab & _).
  assert (Hshape : ∃ x y,
    c1 = change_ref (name element +:+ "_CRL") x
    ∧ b = sbend_command N element options l b1 (unset_as_zero e1)
            (unset_as_zero e2) angle tilt
    ∧ c2 = change_ref (name element +:+ "_CRR") y).
  { destruct (lt0 angle).
    - destruct Hc as (r & _ & [= -> -> ->]). by eexists _, _.
    - destruct (np_isnan tilt); [done|]. injection Hc as -> -> ->.
      by eexists _, _. }
  destruct Hshape as (x & y & -> & -> & ->).
  eexists _, _, _. split; [reflexivity|]. split; [exact Hlab|].
  split; [reflexivity|]. unfold prefix_of.
  split; [rewrite substring_length; lia|].
  split; [apply substring_prefix|].
  split; [apply substring_short|].
  by rewrite !append_length.
Qed.

Lemma sbend_labels_witness :
  ∃ c1 b c2 s1 s,
    @sbend_to_zgoubi numpy_layer 2 Samples.sbend_tilted Samples.kin
      Samples.no_options = Ok [c1; b; c2]
    ∧ label c1 = Given s1 ∧ label b = Given s
    ∧ (String.length s ≤ 2)%nat
    ∧ String.length s1 = (String.length (name Samples.sbend_tilted) + 4)%nat.
Proof.
  assert (Hrun : ∃ c1 b c2,
    @sbend_to_zgoubi numpy_layer 2 Samples.sbend_tilted Samples.kin
      Samples.no_options = Ok [c1; b; c2])
    by (eexists _, _, _; vm_compute; reflexivity).
  destruct Hrun as (c1 & b & c2 & Hrun).
  destruct (@sbend_labels numpy_layer 2 Samples.sbend_tilted Samples.kin
              Samples.no_options c1 b c2 Hrun)
    as (s1 & s & s2 & H1 & Hb & _ & Hlen & _ & _ & Hl1 & _).
  by exists c1, b, c2, s1, s.
Defined.

(** ** The quadrupole, in every case *)

(** X8.  The outcome of the quadrupole converter is decided by K1 and L
    alone.  Without K1 it raises the KeyError of its guard, before L is
    looked at.  With K1 and without L it raises KeyError('L').  With both
    it returns one Quadrupole command, labelled with the name cut to the
    label length, with XL = L, R0 the bore radius of the options or 10 cm,
    B0 = (K1 / m**2) * brho * R0 and XE, LAM_E, XS, LAM_S all 0 cm. *)
Theorem quadrupole_to_zgoubi_cases (N : nat) (element : Element)
    (kinematics : Kinematics) (options : Options) :
  match attrs element !! "K1", attrs element !! "L" with
  | None, _ =>
      quadrupole_to_zgoubi N element kinematics options
      = Raise (KeyError "K1 and K1L cannot be defined at the same time.")
  | Some _, None =>
      quadrupole_to_zgoubi N element kinematics options
      = Raise (KeyError "L")
  | Some k1, Some l =>
      ∃ q, quadrupole_to_zgoubi N element kinematics options = Ok [q]
           ∧ cls q = Quadrupole
           ∧ label q = Given (prefix_of N (name element))
           ∧ params q !! "XL" = Some (VQty l)
           ∧ params q !! "R0" = Some (VQty (default cm10 (R0 options)))
           ∧ params q !! "B0"
             = Some (VQty (qmul (qmul (div_unit k1 (unit_pow meter 2))
                                      (brho kinematics))
                                (default cm10 (R0 options))))
           ∧ params q !! "XE" = Some (VQty (Q_ zero cm))
           ∧ params q !! "LAM_E" = Some (VQty (Q_ zero cm))
           ∧ params q !! "XS" = Some (VQty (Q_ zero cm))
           ∧ params q !! "LAM_S" = Some (VQty (Q_ zero cm))
  end.
Proof.
  destruct (attrs element !! "K1") as [k1|] eqn:Hk1.
  - unfold quadrupole_to_zgoubi.
    rewrite (quadrupole_gradient_K1 element k1 Hk1).
    unfold getitem. destruct (attrs element !! "L") as [l|]; [|done].
    eexists. split; [reflexivity|]. by repeat split.
  - destruct (attrs element !! "L"); by apply quadrupole_without_K1.
Qed.

(** X9.  K1L has no part in the result of the quadrupole converter:
    setting it to any value, or removing it, changes nothing. *)
Theorem quadrupole_ignores_K1L (N : nat) (element : Element)
    (kinematics : Kinematics) (options : Options) (k1l : Quantity) :
  quadrupole_to_zgoubi N
    {| name := name element; attrs := <["K1L" := k1l]> (attrs element) |}
    kinematics options
  = quadrupole_to_zgoubi N element kinematics options
  ∧ quadrupole_to_zgoubi N
      {| name := name element; attrs := delete "K1L" (attrs element) |}
      kinematics options
    = quadrupole_to_zgoubi N element kinematics options.
Proof.
  assert (Hcases : ∀ e' : Element,
    name e' = name element →
    attrs e' !! "K1" = attrs element !! "K1" →
    attrs e' !! "L" = attrs element !! "L" →
    quadrupole_to_zgoubi N e' kinematics options
    = quadrupole_to_zgoubi N element kinematics options).
  { intros e' Hn Hk1 Hl.
    unfold quadrupole_to_zgoubi, quadrupole_gradient, get, getitem.
    cbv zeta. rewrite Hn, Hk1, Hl.
    destruct (attrs element !! "K1") as [k1|]; repeat case_decide; done. }
  split; apply Hcases; simpl; try done.
  - by rewrite lookup_insert_ne.
  - by rewrite lookup_insert_ne.
  - by rewrite lookup_delete_ne.
  - by rewrite lookup_delete_ne.
Qed.

(** ** The rectangular bend, at its edges *)

Lemma rbend_Ok_inv `{UnitLayer} (element : Element) (kinematics : Kinematics)
    (options : Options) (cmds : list Command) :
  rbend_to_zgoubi element kinematics options = Ok cmds →
  ∃ l angle k1l tilt d b1 g r,
    attrs element !! "L" = Some l
    ∧ attrs element !! "ANGLE" = Some angle
    ∧ attrs element !! "K1L" = Some k1l
    ∧ attrs element !! "TILT" = Some tilt
    ∧ qdiv l angle = Ok d
    ∧ qdiv (brho kinematics) (mul_unit d meter) = Ok b1
    ∧ qdiv k1l l = Ok g
    ∧ m_as (default cm10 (R0 options)) meter = Ok r.
Proof.
  intros Hok. unfold rbend_to_zgoubi in Hok.
  apply bind_Ok in Hok as (xl & (l & Hl%getitem_Ok & _)%bind_Ok & Hok).
  apply bind_Ok in Hok as (b1 & Hb1 & Hok).
  apply bind_Ok in Hb1 as (l' & Hl'%getitem_Ok & Hb1).
  apply bind_Ok in Hb1 as (angle & Ha%getitem_Ok & Hb1).
  apply bind_Ok in Hb1 as (d & Hd & Hb1).
  apply bind_Ok in Hok as (b2 & Hb2 & Hok).
  apply bind_Ok in Hb2 as (k1l & Hk%getitem_Ok & Hb2).
  apply bind_Ok in Hb2 as (l'' & Hl''%getitem_Ok & Hb2).
  apply bind_Ok in Hb2 as (g & Hg & Hb2).
  apply bind_Ok in Hb2 as (r & Hr & _).
  apply bind_Ok in Hok as (r1 & (tilt & Ht%getitem_Ok & _)%bind_Ok & _).
  simplify_eq. by exists l, angle, k1l, tilt, d, b1, g, r.
Qed.

(** X10.  The rectangular bend converter never makes up a missing
    attribute: if it returns, the element carries L, ANGLE, K1L and TILT,
    and the result is one Multipole command whose label is generated from
    the element name and whose bore radius R0 is the one of the options,
    or 10 cm. *)
Theorem rbend_returns_only_with_attributes `{UnitLayer} (element : Element)
    (kinematics : Kinematics) (options : Options) (cmds : list Command) :
  rbend_to_zgoubi element kinematics options = Ok cmds →
  is_Some (attrs element !! "L")
  ∧ is_Some (attrs element !! "ANGLE")
  ∧ is_Some (attrs element !! "K1L")
  ∧ is_Some (attrs element !! "TILT")
  ∧ ∃ m, cmds = [m]
         ∧ cls m = Multipole
         ∧ label m = Generated (name element)
         ∧ params m !! "R0"
           = Some (VQty (default (Q_ (of_Z 10) cm) (R0 options))).
Proof.
  intros Hok.
  destruct (rbend_Ok_inv element kinematics options cmds Hok)
    as (l & angle & k1l & tilt & d & b1 & g & r
        & Hl & Ha & Hk & Ht & Hd & Hb1 & Hg & Hr).
  rewrite (rbend_run element kinematics options l angle k1l tilt d b1 g r
             Hl Ha Hk Ht Hd Hb1 Hg Hr) in Hok.
  injection Hok as <-. rewrite Hl, Ha, Hk, Ht.
  repeat (split; [done|]). eexists. by repeat split.
Qed.

Lemma rbend_returns_only_with_attributes_witness :
  is_Some (attrs (Samples.rbend Samples.tenth) !! "K1L").
Proof.
  edestruct (@rbend_returns_only_with_attributes numpy_layer
               (Samples.rbend Samples.tenth) Samples.kin Samples.no_options)
    as (_ & _ & Hk & _); [vm_compute; reflexivity|].
  exact Hk.
Defined.

(** X11.  Where divisions follow IEEE-754 and never raise, a rectangular
    bend of zero ANGLE is converted without any error: with a finite
    non-zero L and a finite non-zero rigidity the field B1 is a zero, and
    with L zero as well B1 is NaN. *)
Theorem rbend_zero_angle_ieee (element : Element) (kinematics : Kinematics)
    (options : Options) (l angle k1l tilt : Quantity) (r : float) :
  attrs element !! "L" = Some l →
  attrs element !! "ANGLE" = Some angle →
  attrs element !! "K1L" = Some k1l →
  attrs element !! "TILT" = Some tilt →
  @m_as numpy_layer (default cm10 (R0 options)) meter = Ok r →
  (∃ s, magnitude angle = S754_zero s) →
  (∃ s m e, magnitude (brho kinematics) = S754_finite s m e) →
  ∃ m b1,
    @rbend_to_zgoubi numpy_layer element kinematics options = Ok [m]
    ∧ params m !! "B1" = Some (VQty b1)
    ∧ ((∃ s m e, magnitude l = S754_finite s m e) →
       ∃ s, magnitude b1 = S754_zero s)
    ∧ ((∃ s, magnitude l = S754_zero s) → magnitude b1 = S754_nan).
Proof.
  intros Hl Ha Hk Ht Hr [sa Hza] (sb & mb & eb & Hb).
  rewrite (@rbend_run numpy_layer element kinematics options l angle k1l tilt
             (Q_ (div (magnitude l) (magnitude angle))
                 (unit_div (units l) (units angle)))
             (Q_ (div (magnitude (brho kinematics))
                      (div (magnitude l) (magnitude angle)))
                 (unit_div (units (brho kinematics))
                    (unit_mul (unit_div (units l) (units angle)) meter)))
             (Q_ (div (magnitude k1l) (magnitude l))
                 (unit_div (units k1l) (units l)))
             r Hl Ha Hk Ht eq_refl eq_refl eq_refl Hr).
  eexists _, _. split; [reflexivity|]. split; [reflexivity|].
  simpl. rewrite Hza, Hb. split.
  - intros (sl & ml & el & ->). by eexists.
  - by intros [sl ->].
Qed.

Lemma rbend_zero_angle_ieee_witness :
  ∃ m b1,
    @rbend_to_zgoubi numpy_layer (Samples.rbend zero) Samples.kin
      Samples.no_options = Ok [m]
    ∧ params m !! "B1" = Some (VQty b1)
    ∧ ∃ s, magnitude b1 = S754_zero s.
Proof.
  edestruct (rbend_zero_angle_ieee (Samples.rbend zero) Samples.kin
               Samples.no_options (num (of_Z 2)) (num zero) (num zero)
               (num zero))
    as (m & b1 & Hrun & Hb1 & Hfin & _);
    try (vm_compute; reflexivity).
  - by exists false.
  - by eexists _, _, _.
  - exists m, b1. split; [exact Hrun|]. split; [exact Hb1|].
    apply Hfin. by eexists _, _, _.
Defined.

(** ** The cavity, from its result *)

Lemma sign_negative (x : float) : ltb x zero = true → sign x = minus_one.
Proof.
  unfold sign. intros Hlt.
  assert (ltb zero x = false) as ->
    by (destruct x as [s|s| |s m e]; try destruct s; by cbv in Hlt |- *).
  by rewrite Hlt.
Qed.

Lemma sign_positive (x : float) : ltb zero x = true → sign x = one.
Proof. unfold sign. by intros ->. Qed.

Lemma sign_zero (x : float) : eqb x zero = true → sign x = zero.
Proof.
  unfold sign. intros Heq.
  assert (ltb zero x = false) as ->
    by (destruct x as [s|s| |s m e]; try destruct s; by cbv in Heq |- *).
  by rewrite (eq_zero_not_lt x Heq), Heq.
Qed.

Lemma twcavity_Ok_inv `{UnitLayer} (N : nat) (element : Element)
    (kinematics : Kinematics) (options : Options) (cmds : list Command) :
  twcavity_to_zgoubi N element kinematics options = Ok cmds →
  ∃ freq volt lag s,
    attrs element !! "FREQ" = Some freq
    ∧ attrs element !! "VOLT" = Some volt
    ∧ attrs element !! "LAG" = Some lag
    ∧ qadd lag (num half_pi) = Ok s.
Proof.
  intros Hok. unfold twcavity_to_zgoubi in Hok.
  apply bind_Ok in Hok as (f & (freq & Hf%getitem_Ok & _)%bind_Ok & Hok).
  apply bind_Ok in Hok as (v & (volt & Hv%getitem_Ok & _)%bind_Ok & Hok).
  apply bind_Ok in Hok as (p & Hp & _).
  apply bind_Ok in Hp as (lag & Hl%getitem_Ok & Hp).
  apply bind_Ok in Hp as (s & Hs & _).
  by exists freq, volt, lag, s.
Qed.

Lemma twcavity_run `{UnitLayer} (N : nat) (element : Element)
    (kinematics : Kinematics) (options : Options)
    (freq volt lag s : Quantity) :
  attrs element !! "FREQ" = Some freq →
  attrs element !! "VOLT" = Some volt →
  attrs element !! "LAG" = Some lag →
  qadd lag (num half_pi) = Ok s →
  twcavity_to_zgoubi N element kinematics options
  = Ok [new Drift NoLabel [("XL", VQty (mul_unit (num one) mm))];
        new Cavite (Given (prefix_of N (name element)))
          [("IOPT", VInt 10);
           ("XL", VQty (mul_unit (num one) meter));
           ("FREQ", VQty (mul_unit freq MHz));
           ("V", VQty (qmul (mul_unit volt MV) (np_sign (brho kinematics))));
           ("PHI_S", VQty (mul_unit s radian))]].
Proof.
  intros HF HV HL Hs. unfold twcavity_to_zgoubi. run. by rewrite Hs.
Qed.

(** X12.  The voltage of the cavity follows the sign of the rigidity:
    whenever the converter returns, V is the VOLT attribute in MV times
    -1 for a negative brho, times 1 for a positive one and times 0 for a
    brho equal to zero. *)
Theorem twcavity_voltage_sign `{UnitLayer} (N : nat) (element : Element)
    (kinematics : Kinematics) (options : Options) (cmds : list Command)
    (volt : Quantity) :
  attrs element !! "VOLT" = Some volt →
  twcavity_to_zgoubi N element kinematics options = Ok cmds →
  ∃ d c, cmds = [d; c]
    ∧ (lt0 (brho kinematics) = true →
       params c !! "V"
       = Some (VQty (qmul (mul_unit volt MV) (num minus_one))))
    ∧ (ltb zero (magnitude (brho kinematics)) = true →
       params c !! "V" = Some (VQty (qmul (mul_unit volt MV) (num one))))
    ∧ (eq0 (brho kinematics) = true →
       params c !! "V" = Some (VQty (qmul (mul_unit volt MV) (num zero)))).
Proof.
  intros Hv Hok.
  destruct (twcavity_Ok_inv N element kinematics options cmds Hok)
    as (freq & volt' & lag & s & Hf & Hv' & Hl & Hs).
  simplify_eq.
  rewrite (twcavity_run N element kinematics options freq volt lag s
             Hf Hv Hl Hs) in Hok.
  injection Hok as <-. eexists _, _. split; [reflexivity|].
  assert (HV : ∀ c : Command,
    c = new Cavite (Given (prefix_of N (name element)))
          [("IOPT", VInt 10);
           ("XL", VQty (mul_unit (num one) meter));
           ("FREQ", VQty (mul_unit freq MHz));
           ("V", VQty (qmul (mul_unit volt MV) (np_sign (brho kinematics))));
           ("PHI_S", VQty (mul_unit s radian))] →
    params c !! "V"
    = Some (VQty (qmul (mul_unit volt MV) (np_sign (brho kinematics)))))
    by (by intros c ->).
  rewrite (HV _ eq_refl). unfold np_sign, lt0, eq0.
  split; [|split]; intros Hs'.
  - by rewrite sign_negative.
  - by rewrite sign_positive.
  - by rewrite sign_zero.
Qed.

Lemma twcavity_voltage_sign_witness :
  ∃ d c,
    @twcavity_to_zgoubi numpy_layer 10 Samples.twcavity Samples.kin
      Samples.no_options = Ok [d; c]
    ∧ params c !! "V"
      = Some (VQty (qmul (mul_unit (num (of_Z 10)) MV) (num one))).
Proof.
  assert (Hrun : ∃ cmds,
    @twcavity_to_zgoubi numpy_layer 10 Samples.twcavity Samples.kin
      Samples.no_options = Ok cmds) by (eexists; vm_compute; reflexivity).
  destruct Hrun as [cmds Hrun].
  destruct (@twcavity_voltage_sign numpy_layer 10 Samples.twcavity Samples.kin
              Samples.no_options cmds (num (of_Z 10)) eq_refl Hrun)
    as (d & c & -> & _ & Hpos & _).
  exists d, c. split; [exact Hrun|]. apply Hpos. reflexivity.
Defined.

(** ** Labels cut to the label length *)

(** X13.  The quadrupole, sextupole, octupole and cavity converters cut
    the element name to the label length: every label they give is a
    prefix of the name, of at most ZGOUBI_LABEL_LENGTH characters, and the
    whole name when the name is that short. *)
Theorem labels_are_cut `{UnitLayer} (N : nat) (element : Element)
    (kinematics : Kinematics) (options : Options) (cmds : list Command) :
  quadrupole_to_zgoubi N element kinematics options = Ok cmds
  ∨ sextupole_to_zgoubi N element kinematics options = Ok cmds
  ∨ octupole_to_zgoubi N element kinematics options = Ok cmds
  ∨ twcavity_to_zgoubi N element kinematics options = Ok cmds →
  Forall (λ c, ∀ s, label c = Given s →
                 (String.length s ≤ N)%nat
                 ∧ String.prefix s (name element) = true
                 ∧ ((String.length (name element) ≤ N)%nat →
                    s = name element))
         cmds.
Proof.
  assert (Hcut : ∀ s, Given (prefix_of N (name element)) = Given s →
    (String.length s ≤ N)%nat
    ∧ String.prefix s (name element) = true
    ∧ ((String.length (name element) ≤ N)%nat → s = name element)).
  { intros s [= <-]. unfold prefix_of.
    split; [rewrite substring_length; lia|].
    split; [apply substring_prefix | apply substring_short]. }
  intros [Hq|[Hs|[Ho|Hc]]].
  - unfold quadrupole_to_zgoubi in Hq.
    apply bind_Ok in Hq as (g & _ & Hq).
    apply bind_Ok in Hq as (l & _ & [= <-]).
    constructor; [exact Hcut | constructor].
  - unfold sextupole_to_zgoubi in Hs.
    apply bind_Ok in Hs as (l & _ & [= <-]).
    constructor; [exact Hcut | constructor].
  - unfold octupole_to_zgoubi in Ho.
    apply bind_Ok in Ho as (l & _ & [= <-]).
    constructor; [exact Hcut | constructor].
  - destruct (twcavity_Ok_inv N element kinematics options cmds Hc)
      as (freq & volt & lag & s & Hf & Hv & Hl & Hs).
    rewrite (twcavity_run N element kinematics options freq volt lag s
               Hf Hv Hl Hs) in Hc.
    injection Hc as <-.
    constructor; [by intros s' | constructor; [exact Hcut | constructor]].
Qed.

Lemma labels_are_cut_witness :
  ∃ q s,
    quadrupole_to_zgoubi 2 Samples.quadrupole_K1_K1L Samples.kin
      Samples.no_options = Ok [q]
    ∧ label q = Given s
    ∧ (String.length s ≤ 2)%nat.
Proof.
  assert (Hrun : ∃ q s,
    quadrupole_to_zgoubi 2 Samples.quadrupole_K1_K1L Samples.kin
      Samples.no_options = Ok [q] ∧ label q = Given s)
    by (eexists _, _; split; vm_compute; reflexivity).
  destruct Hrun as (q & s & Hrun & Hlab).
  pose proof (@labels_are_cut numpy_layer 2 Samples.quadrupole_K1_K1L
                Samples.kin Samples.no_options [q] (or_introl Hrun)) as Hall.
  apply Forall_cons in Hall as [Hq _].
  destruct (Hq s Hlab) as [Hlen _].
  by exists q, s.
Defined.

(** * Further properties of the survey *)

Section SurveyMore.
Context {Frame PState OState : Type}.
Variable Frame_new : Frame.
Variable place : PState → Frame → PState * option exn.
Variable exit : PState → Frame.

Abbreviation loop' := (survey_loop place exit).

Lemma survey_loop_app (l1 l2 : list addr)
    (h : gmap addr (Object PState OState)) (f : Frame) :
  loop' (l1 ++ l2) h f
  = match raised (loop' l1 h f) with
    | Some _ => loop' l1 h f
    | None =>
        {| heap := heap (loop' l2 (heap (loop' l1 h f))
                           (last_frame (loop' l1 h f)));
           last_frame := last_frame (loop' l2 (heap (loop' l1 h f))
                                       (last_frame (loop' l1 h f)));
           calls := calls (loop' l1 h f)
                    ++ calls (loop' l2 (heap (loop' l1 h f))
                                (last_frame (loop' l1 h f)));
           raised := raised (loop' l2 (heap (loop' l1 h f))
                               (last_frame (loop' l1 h f))) |}
    end.
Proof.
  revert h f. induction l1 as [|e l1 IH]; intros h f; simpl.
  - by destruct (loop' l2 h f).
  - destruct (h !! e) as [[p|o]|]; [|apply IH..].
    destruct (place p f) as [p' [x|]]; simpl; [done|].
    rewrite IH.
    destruct (raised (loop' l1 _ _)) eqn:Hr; simpl; [by rewrite Hr | done].
Qed.

Lemma survey_loop_last_frame (es : list addr)
    (h : gmap addr (Object PState OState)) (f : Frame) :
  raised (loop' es h f) = None →
  last_frame (loop' es h f)
  = from_option exit_frame f (last (calls (loop' es h f))).
Proof.
  revert h f. induction es as [|e es IH]; intros h f; simpl; [done|].
  destruct (h !! e) as [[p|o]|]; [|apply IH..].
  destruct (place p f) as [p' [x|]]; simpl; [done|].
  intros Hr. rewrite (IH _ _ Hr), last_cons.
  by destruct (last (calls (loop' es _ _))).
Qed.

Lemma survey_loop_prefix (es : list addr)
    (h : gmap addr (Object PState OState)) (f : Frame) :
  target <$> calls (loop' es h f) `prefix_of` List.filter (is_patchable h) es.
Proof.
  revert h f. induction es as [|e es IH]; intros h f; simpl; [done|].
  unfold is_patchable at 1.
  destruct (h !! e) as [[p|o]|] eqn:He; [|apply IH..].
  destruct (place p f) as [p' [x|]]; simpl; [apply prefix_nil|].
  apply prefix_cons.
  rewrite (List.filter_ext (is_patchable h)
             (is_patchable (<[e:=IsPatchable p']> h))).
  - apply IH.
  - intros a. symmetry. by apply is_patchable_insert with p.
Qed.

Lemma survey_loop_no_patchable (es : list addr)
    (h : gmap addr (Object PState OState)) (f : Frame) :
  Forall (λ e, is_patchable h e = false) es →
  loop' es h f
  = {| heap := h; last_frame := f; calls := []; raised := None |}.
Proof.
  induction 1 as [|e es He _ IH]; simpl; [done|].
  unfold is_patchable in He.
  by destruct (h !! e) as [[p|o]|].
Qed.

(** X14.  A placement that raises stops the survey where it is: the
    exception is the one [survey] raises, the elements before the failing
    one are placed as in a survey of that part of the line alone, the
    failing element is left as its own [place] left it, and nothing after
    it is placed. *)
Theorem survey_stops_at_failure (h : gmap addr (Object PState OState))
    (nm : string) (id : addr) (l1 l2 : list addr) (e : addr)
    (p p' : PState) (x : exn) (reference_frame : option Frame)
    (first : Input.t) :
  returned (survey Frame_new place exit h (Some (new_Input nm id l1))
              reference_frame) = Ok first →
  heap_after (survey Frame_new place exit h (Some (new_Input nm id l1))
                reference_frame) !! e = Some (IsPatchable p) →
  place p (from_option exit_frame (default Frame_new reference_frame)
             (last (place_calls
                      (survey Frame_new place exit h
                         (Some (new_Input nm id l1)) reference_frame))))
  = (p', Some x) →
  returned (survey Frame_new place exit h
              (Some (new_Input nm id (l1 ++ e :: l2))) reference_frame)
  = Raise x
  ∧ place_calls (survey Frame_new place exit h
                   (Some (new_Input nm id (l1 ++ e :: l2))) reference_frame)
    = place_calls (survey Frame_new place exit h
                     (Some (new_Input nm id l1)) reference_frame)
  ∧ heap_after (survey Frame_new place exit h
                  (Some (new_Input nm id (l1 ++ e :: l2))) reference_frame)
    = <[e := IsPatchable p']>
        (heap_after (survey Frame_new place exit h
                       (Some (new_Input nm id l1)) reference_frame)).
Proof.
  unfold survey, new_Input. simpl. intros Hret He Hp.
  destruct (raised (loop' l1 h (default Frame_new reference_frame)))
    eqn:Hr; [done|].
  rewrite <- (survey_loop_last_frame _ _ _ Hr) in Hp.
  rewrite survey_loop_app, Hr. simpl. rewrite He, Hp. simpl.
  by rewrite app_nil_r.
Qed.

(** X15.  Surveying a line in two parts gives the survey of the whole:
    when the first part is surveyed without an exception, the survey of
    l1 ++ l2 makes the calls of the survey of l1 followed by those of a
    survey of l2 that starts, on the heap the first one left, from the
    last exit frame read (or from the starting frame when the first part
    placed nothing); heap and exception are those of the second survey. *)
Theorem survey_composes (h : gmap addr (Object PState OState))
    (nm : string) (id : addr) (l1 l2 : list addr)
    (reference_frame : option Frame) (first : Input.t) :
  returned (survey Frame_new place exit h (Some (new_Input nm id l1))
              reference_frame) = Ok first →
  place_calls (survey Frame_new place exit h
                 (Some (new_Input nm id (l1 ++ l2))) reference_frame)
  = (place_calls (survey Frame_new place exit h (Some (new_Input nm id l1))
                    reference_frame)
     ++ place_calls
          (survey Frame_new place exit
             (heap_after (survey Frame_new place exit h
                            (Some (new_Input nm id l1)) reference_frame))
             (Some (new_Input nm id l2))
             (Some (from_option exit_frame (default Frame_new reference_frame)
                      (last (place_calls
                               (survey Frame_new place exit h
                                  (Some (new_Input nm id l1))
                                  reference_frame)))))))%list
  ∧ heap_after (survey Frame_new place exit h
                  (Some (new_Input nm id (l1 ++ l2))) reference_frame)
    = heap_after
        (survey Frame_new place exit
           (heap_after (survey Frame_new place exit h
                          (Some (new_Input nm id l1)) reference_frame))
           (Some (new_Input nm id l2))
           (Some (from_option exit_frame (default Frame_new reference_frame)
                    (last (place_calls
                             (survey Frame_new place exit h
                                (Some (new_Input nm id l1))
                                reference_frame))))))
  ∧ (∀ x,
        returned (survey Frame_new place exit h
                    (Some (new_Input nm id (l1 ++ l2))) reference_frame)
        = Raise x
        ↔ returned
            (survey Frame_new place exit
               (heap_after (survey Frame_new place exit h
                              (Some (new_Input nm id l1)) reference_frame))
               (Some (new_Input nm id l2))
               (Some (from_option exit_frame
                        (default Frame_new reference_frame)
                        (last (place_calls
                                 (survey Frame_new place exit h
                                    (Some (new_Input nm id l1))
                                    reference_frame))))))
          = Raise x).
Proof.
  unfold survey, new_Input. simpl. intros Hret.
  destruct (raised (loop' l1 h (default Frame_new reference_frame)))
    eqn:Hr; [done|].
  rewrite <- (survey_loop_last_frame _ _ _ Hr).
  rewrite survey_loop_app, Hr. simpl.
  split; [done|]. split; [done|].
  intros x. by destruct (raised (loop' l2 _ _)).
Qed.

(** X17.  Also when a placement raises, the calls made so far are
    chained from the starting frame, and they went to the Patchable
    elements of the line in the order of the line, none skipped and none
    twice over: their targets are a prefix of the Patchable elements of
    the line. *)
Theorem survey_calls_in_order (h : gmap addr (Object PState OState))
    (beamline : Input.t) (reference_frame : option Frame) :
  chained (default Frame_new reference_frame)
    (place_calls (survey Frame_new place exit h (Some beamline)
                    reference_frame))
  ∧ target <$> place_calls (survey Frame_new place exit h (Some beamline)
                              reference_frame)
    `prefix_of` List.filter (is_patchable h) (items (Input.line beamline)).
Proof.
  unfold survey. simpl. split.
  - apply survey_loop_chained.
  - apply survey_loop_prefix.
Qed.

(** X18.  On a line without any Patchable element, the empty line
    included, [survey] calls no placement, leaves the heap as it is and
    returns the new Input, whatever the placements would do. *)
Theorem survey_without_patchable (h : gmap addr (Object PState OState))
    (beamline : Input.t) (reference_frame : option Frame) :
  Forall (λ e, is_patchable h e = false) (items (Input.line beamline)) →
  survey Frame_new place exit h (Some beamline) reference_frame
  = {| heap_after := h;
       place_calls := [];
       returned := Ok {| Input.name := Input.name beamline;
                         Input.line := Input.line beamline |} |}.
Proof.
  intros Hnone. unfold survey.
  by rewrite (survey_loop_no_patchable _ _ _ Hnone).
Qed.
End SurveyMore.

Lemma survey_stops_at_failure_witness :
  returned (survey 0 DriftLine.place_checked DriftLine.exit DriftLine.h1
              (Some (new_Input "LINE" 9
                       ([1; 2]%positive ++ 3%positive :: [4%positive])))
              None)
  = Raise (PlacementError "negative length")
  ∧ place_calls (survey 0 DriftLine.place_checked DriftLine.exit DriftLine.h1
                   (Some (new_Input "LINE" 9
                            ([1; 2]%positive ++ 3%positive :: [4%positive])))
                   None)
    = [ {| target := 1; entry_frame := 0; exit_frame := 1000 |} ].
Proof.
  destruct (survey_stops_at_failure 0 DriftLine.place_checked DriftLine.exit
              DriftLine.h1 "LINE" 9%positive [1; 2]%positive [4%positive]
              3%positive
              {| DriftLine.length_mm := -2000; DriftLine.entry := None |}
              {| DriftLine.length_mm := -2000; DriftLine.entry := None |}
              (PlacementError "negative length") None
              (new_Input "LINE" 9 [1; 2]%positive))
    as (Hret & Hcalls & _).
  - vm_compute. reflexivity.
  - vm_compute. reflexivity.
  - vm_compute. reflexivity.
  - split; [exact Hret|]. rewrite Hcalls. vm_compute. reflexivity.
Defined.

Lemma survey_composes_witness :
  place_calls (survey 0 DriftLine.place DriftLine.exit DriftLine.h0
                 (Some (new_Input "LINE" 9
                          ([1; 2]%positive ++ [3; 4]%positive))) None)
  = (place_calls (survey 0 DriftLine.place DriftLine.exit DriftLine.h0
                    (Some (new_Input "LINE" 9 [1; 2]%positive)) None)
     ++ [ {| target := 3; entry_frame := 1000; exit_frame := 3000 |};
          {| target := 4; entry_frame := 3000; exit_frame := 4500 |} ])%list.
Proof.
  destruct (survey_composes 0 DriftLine.place DriftLine.exit DriftLine.h0
              "LINE" 9%positive [1; 2]%positive [3; 4]%positive None
              (new_Input "LINE" 9 [1; 2]%positive))
    as (Hcalls & _ & _).
  - vm_compute. reflexivity.
  - rewrite Hcalls. vm_compute. reflexivity.
Defined.

Lemma survey_without_patchable_witness :
  survey 0 DriftLine.place DriftLine.exit DriftLine.h0
    (Some (DriftLine.beamline [2; 5]%positive)) (Some 700)
  = {| heap_after := DriftLine.h0;
       place_calls := [];
       returned := Ok (DriftLine.beamline [2; 5]%positive) |}.
Proof.
  apply (survey_without_patchable 0 DriftLine.place DriftLine.exit
           DriftLine.h0 (DriftLine.beamline [2; 5]%positive) (Some 700)).
  repeat constructor.
Defined.
